(** * waterfall_ax: the WaterfallChart class

    A shallow embedding of [waterfall_ax/waterfall_ax.py].  The class keeps
    a list of cumulative step values, derives from it the plotting table
    (a pandas DataFrame with a value, a delta and a base column) and drives
    matplotlib with it.

    Modelling conventions.
    - Step values are integers ([Z]) and the cells of the table are
      computed exactly.  pandas subtracts in int64 and keeps the table in
      float64 cells; the two agree on step values that float64 holds
      exactly (magnitude at most 2^53) and whose successive differences it
      holds exactly ([exact_inputs]), and the statements about the cells'
      arithmetic carry that as a hypothesis.  [float64.prep_plot] runs the
      same lines over float64 cells, for the inputs where rounding shows.
      NaN is [None].
    - A Series is the list of its values; a DataFrame is its row index and
      its named columns, in order.
    - matplotlib's Axes is the list of the drawing calls it has received,
      oldest first.  Drawing calls themselves do not fail: the keyword
      arguments handed on are taken to be ones the call accepts, and not
      to repeat an argument the code passes itself ([bar_keywords]).
    - A Python exception is the [Err] branch of [result].  Functions that
      draw thread the Axes explicitly and hand it back also when they
      raise: what was drawn before the exception stays drawn. *)

From Stdlib Require Import ZArith QArith Lia.
From Stdlib Require Import Floats.PrimFloat.
From Stdlib Require Import Strings.String Strings.Ascii Numbers.DecimalString.
From stdpp Require Import base option list strings gmap.

Local Open Scope Z_scope.

(** ** Exceptions *)

Inductive PyError : Type :=
| IndexError
| KeyError (key : string)
| TypeError
| ValueError (msg : string).

Inductive result (A : Type) : Type :=
| Ok (a : A)
| Err (e : PyError).
Arguments Ok {A} a.
Arguments Err {A} e.

#[global] Instance result_ret : MRet result := @Ok.
#[global] Instance result_bind : MBind result := fun A B f m =>
  match m with
  | Ok a => f a
  | Err e => Err e
  end.
#[global] Instance result_fmap : FMap result := fun A B f m =>
  match m with
  | Ok a => Ok (f a)
  | Err e => Err e
  end.

(** ** Python values that reach [bar_labels] *)

Inductive PyAtom : Type :=
| PyNone
| PyBool (b : bool)
| PyInt (z : Z)
| PyStr (s : string).

Inductive PyVal : Type :=
| Atom (a : PyAtom)
| PyList (l : list PyAtom).

(** Decimal rendering of Python integers. *)
Definition str_of_nat (n : nat) : string := NilEmpty.string_of_uint (Nat.to_uint n).
Definition str_of_Z (z : Z) : string := NilEmpty.string_of_int (Z.to_int z).

(** [str(x)] *)
Definition py_str (a : PyAtom) : string :=
  match a with
  | PyNone => "None"
  | PyBool true => "True"
  | PyBool false => "False"
  | PyInt z => str_of_Z z
  | PyStr s => s
  end.

(** Truth value, as tested by [if bar_labels:]. *)
Definition truthy (v : PyVal) : bool :=
  match v with
  | Atom PyNone => false
  | Atom (PyBool b) => b
  | Atom (PyInt z) => negb (Z.eqb z 0)
  | Atom (PyStr s) => negb (String.eqb s EmptyString)
  | PyList l => match l with [] => false | _ => true end
  end.

(** ** The part of pandas the class uses *)

Module pd.

(** [Series.diff()].  The difference is the exact one; the cell pandas
    stores is the float64 of the int64 difference, the same number on
    [exact_inputs]. *)
Definition sub_nan (a b : option Z) : option Z :=
  match a, b with
  | Some x, Some y => Some (x - y)
  | _, _ => None
  end.

Definition diff (s : list (option Z)) : list (option Z) :=
  match s with
  | [] => []
  | _ :: t => None :: zip_with sub_nan t s
  end.

(** [Series.shift(k)]: the length is kept, NaN comes in at the front. *)
Definition shift (k : nat) (s : list (option Z)) : list (option Z) :=
  take (length s) (replicate k None ++ s).

(** [Series.fillna(other)] with a Series on the same index. *)
Definition fillna_series (s other : list (option Z)) : list (option Z) :=
  zip_with (fun x o => match x with Some _ => x | None => o end) s other.

(** [Series.fillna(c)] with a scalar. *)
Definition fillna (c : Z) (s : list (option Z)) : list (option Z) :=
  map (fun x => match x with Some _ => x | None => Some c end) s.

(** [Series.repeat(k)], on the values and on the index alike. *)
Definition repeat {A} (k : nat) (s : list A) : list A :=
  flat_map (replicate k) s.

(** [Series.max()]: NaN is skipped, an empty Series gives NaN. *)
Definition max (s : list (option Z)) : option Z :=
  foldr (fun x acc =>
           match x, acc with
           | Some a, Some b => Some (Z.max a b)
           | Some a, None => Some a
           | None, _ => acc
           end) None s.

Record DataFrame : Type := {
  index : list string;
  columns : list (string * list (option Z))
}.

Definition len (df : DataFrame) : nat := length (index df).

(** [pd.DataFrame(data, columns=columns, index=index).transpose()] for
    row-wise [data].  The constructor pads short rows with NaN and raises
    [ValueError] when the number of column labels is not the width of the
    data ("N columns passed, passed data had M columns"), or the number of
    row labels not its height.  After the transpose the column labels
    index the rows and the row labels name the columns. *)
Definition DataFrame_transpose (data : list (list (option Z)))
    (columns index : list string) : result DataFrame :=
  let width := foldr Nat.max 0%nat (map length data) in
  if negb (length columns =? width)%nat then
    Err (ValueError (str_of_nat (length columns) +:+ " columns passed, passed data had "
                       +:+ str_of_nat width +:+ " columns"))
  else if negb (length index =? length data)%nat then
    Err (ValueError "Shape of passed values does not match the index")
  else
    Ok {| pd.index := columns;
          pd.columns := zip index (map (fun r => r ++ replicate (width - length r) None) data) |}.

(** [df[key]].  A label no column carries is a [KeyError].  When several
    columns carry the label pandas hands back a sub-frame, not a Series;
    every use the class makes of it (storing it as one column, testing
    its rows with [x<0]) then raises [ValueError]. *)
Definition getitem (df : DataFrame) (key : string) : result (list (option Z)) :=
  match filter (fun c => c.1 = key) (columns df) with
  | [] => Err (KeyError key)
  | [c] => Ok c.2
  | _ => Err (ValueError "a frame with several columns where one is expected")
  end.

(** [df[key] = values]: an existing column is replaced where it stands,
    a new one is appended.  A list must have the length of the index; a
    Series taken from the same frame always has. *)
Definition setitem (df : DataFrame) (key : string) (values : list (option Z))
    : result DataFrame :=
  if negb (length values =? len df)%nat then
    Err (ValueError "Length of values does not match length of index")
  else if existsb (fun c => bool_decide (c.1 = key)) (columns df) then
    Ok {| index := index df;
          columns := map (fun c => if bool_decide (c.1 = key) then (key, values) else c)
                         (columns df) |}
  else
    Ok {| index := index df; columns := columns df ++ [(key, values)] |}.

End pd.

(** ** The chart object *)

(** The attributes [__init__] sets.  The step values are integers; step
    values given as floats are the matter of [float64.prep_plot]. *)
Record WaterfallChart : Type := {
  step_values : list Z;
  step_names : list string;
  metric_col : string;
  delta_col : string;
  base_col : string;
  last_step_label : string
}.

(** [__init__] *)
Definition init (step_values : list Z) (step_names : list string)
    (metric_name last_step_label : string) : WaterfallChart :=
  {| step_values := step_values;
     step_names :=
       if (0 <? length step_names)%nat then step_names
       else map (fun x => "Step_" +:+ str_of_nat (x + 1)) (seq 0 (length step_values));
     metric_col := if String.eqb metric_name EmptyString then "Value" else metric_name;
     delta_col := "delta";
     base_col := "base";
     last_step_label :=
       if String.eqb last_step_label EmptyString then "Final Value" else last_step_label |}.

(** [l[-1]] *)
Definition last_item {A} (l : list A) : result A :=
  match last l with
  | Some x => Ok x
  | None => Err IndexError
  end.

(** [l[0:-1]] and [l[1:-1]] *)
Definition but_last {A} (l : list A) : list A := removelast l.
Definition inner {A} (l : list A) : list A := removelast (tail l).

(** [prep_plot] *)
Definition prep_plot (self : WaterfallChart) : result pd.DataFrame :=
  let values := map Some (step_values self) in
  let step_deltas := pd.fillna_series (pd.diff values) values in
  final ← last_item (step_values self);
  df_plot ← pd.DataFrame_transpose
              [map Some (step_values self ++ [final]); step_deltas ++ [Some final]]
              (step_names self ++ [last_step_label self])
              [metric_col self; delta_col self];
  metric ← pd.getitem df_plot (metric_col self);
  df_plot ← pd.setitem df_plot (base_col self) (pd.fillna 0 (pd.shift 1 metric));
  base ← pd.getitem df_plot (base_col self);
  pd.setitem df_plot (base_col self) (but_last base ++ [Some 0]).

(** ** The part of matplotlib the class drives *)

(** A keyword argument forwarded to a drawing primitive. *)
Inductive KwArg : Type :=
| KwNum (q : Q)
| KwStr (s : string).

(** One call received by an Axes.  [Text] is always issued with
    [horizontalalignment='center'] and [verticalalignment='baseline'],
    [SetTitle] with [fontsize=16]. *)
Inductive Call : Type :=
| Subplots (figsize : Q * Q)
| Bar (x : list string) (height bottom : list (option Z)) (color : list string)
      (kwargs : gmap string KwArg)
| Plot (x : list string) (y : list (option Z)) (kwargs : gmap string KwArg)
| Text (x : nat) (y : option Q) (s : string) (color : string)
| SetXlim (lo hi : Q)
| SetYlim (lo : Q) (hi : option Q)
| SetYlabel (s : string)
| SetTitle (s : string) (fontsize : Z).

Definition Axes : Type := list Call.

(** A computation that draws: it receives the Axes and hands it back
    together with its value or its exception. *)
Definition Draw (A : Type) : Type := Axes -> Axes * result A.

#[global] Instance draw_ret : MRet Draw := fun A a ax => (ax, Ok a).
#[global] Instance draw_bind : MBind Draw := fun A B f m ax =>
  match m ax with
  | (ax', Ok a) => f a ax'
  | (ax', Err e) => (ax', Err e)
  end.

(** A computation that does not draw. *)
Definition lift {A} (r : result A) : Draw A := fun ax => (ax, r).

(** A drawing primitive. *)
Definition call (c : Call) : Draw unit := fun ax => (ax ++ [c], Ok ()).

(** [for x in l: body] *)
Fixpoint for_each {A} (l : list A) (body : A -> Draw unit) : Draw unit :=
  match l with
  | [] => mret ()
  | x :: l' => body x;; for_each l' body
  end.

(** [enumerate(l)] *)
Definition enumerate {A} (l : list A) : list (nat * A) := zip (seq 0 (length l)) l.

(** [d.get(key, default)] *)
Definition dict_get {V} (d : gmap string V) (key : string) (dflt : V) : V :=
  default dflt (d !! key).

(** [l[i]] for [i >= 0] *)
Definition item {A} (l : list A) (i : nat) : result A :=
  match l !! i with
  | Some x => Ok x
  | None => Err IndexError
  end.

(** [int(x)] on a float holding an integer; NaN does not convert. *)
Definition py_int (x : option Z) : result Z :=
  match x with
  | Some z => Ok z
  | None => Err (ValueError "cannot convert float NaN to integer")
  end.

(** ['{:,}'.format(n)]: the decimal digits in groups of three, counted
    from the right and separated by commas, after the sign. *)
Fixpoint group_rev (n : nat) (ds : list ascii) : list ascii :=
  match ds with
  | [] => []
  | d :: ds' =>
      match n with
      | O => ","%char :: d :: group_rev 2 ds'
      | S n' => d :: group_rev n' ds'
      end
  end.

Definition group_digits (s : string) : string :=
  string_of_list_ascii (rev (group_rev 3 (rev (list_ascii_of_string s)))).

Definition format_comma (n : Z) : string :=
  match Z.to_int n with
  | Decimal.Pos d => group_digits (NilEmpty.string_of_uint d)
  | Decimal.Neg d => "-" +:+ group_digits (NilEmpty.string_of_uint d)
  end.

(** A string with its commas taken out. *)
Definition remove_commas (s : string) : string :=
  string_of_list_ascii (filter (fun c => c <> ","%char) (list_ascii_of_string s)).

(** [x * c] on a float, NaN staying NaN. *)
Definition scale (c : Q) (x : option Z) : option Q :=
  match x with
  | Some z => Some (inject_Z z * c)%Q
  | None => None
  end.

(** [x < 0]: false on NaN. *)
Definition negative (x : option Z) : bool :=
  match x with
  | Some z => z <? 0
  | None => false
  end.

(** ** Colours and labels *)

(** [get_colors] *)
Definition get_colors (color_kwargs : gmap string string)
    : string * string * string * string * string * string * string * string :=
  let c_bar_pos := dict_get color_kwargs "c_bar_pos" "seagreen" in
  let c_bar_neg := dict_get color_kwargs "c_bar_neg" "salmon" in
  let c_bar_start := dict_get color_kwargs "c_bar_start" "c" in
  let c_bar_end := dict_get color_kwargs "c_bar_end" "grey" in
  let c_text_pos := dict_get color_kwargs "c_text_pos" "darkgreen" in
  let c_text_neg := dict_get color_kwargs "c_text_neg" "maroon" in
  let c_text_start := dict_get color_kwargs "c_text_start" "black" in
  let c_text_end := dict_get color_kwargs "c_text_end" "black" in
  (c_bar_pos, c_bar_neg, c_bar_start, c_bar_end,
   c_text_pos, c_text_neg, c_text_start, c_text_end).

(** [create_color_list] *)
Definition create_color_list (self : WaterfallChart) (df_plot : pd.DataFrame)
    (color_kwargs : gmap string string) : result (list string * list string) :=
  let '(c_bar_pos, c_bar_neg, c_bar_start, c_bar_end,
        c_text_pos, c_text_neg, c_text_start, c_text_end) := get_colors color_kwargs in
  delta ← pd.getitem df_plot (delta_col self);
  let mid_values := inner delta in
  let barcolors :=
    [c_bar_start] ++ map (fun x => if negative x then c_bar_neg else c_bar_pos) mid_values
    ++ [c_bar_end] in
  let txtcolors :=
    [c_text_start] ++ map (fun x => if negative x then c_text_neg else c_text_pos) mid_values
    ++ [c_text_end] in
  mret (barcolors, txtcolors).

(** [check_label_type] *)
Definition check_label_type (bar_labels : PyVal) : result string :=
  match bar_labels with
  | PyList _ => Ok "list"
  | Atom (PyBool _) => Ok "value"
  | Atom (PyStr _) => Ok "str"
  | Atom _ =>
      Err (ValueError
             "bar_labels can only be of type bool, string, or list. Please check input type.")
  end.

(** The label modes [check_label_type] documents as valid: a boolean, a
    string or a list. *)
Definition allowed_label_type (bar_labels : PyVal) : bool :=
  match bar_labels with
  | Atom (PyBool _) | Atom (PyStr _) | PyList _ => true
  | Atom _ => false
  end.

(** ** Drawing *)

(** [plot_bars].  The [ax.bar] call is recorded with the keyword
    arguments it is handed; the TypeError of a [bar_kwargs] that repeats
    one of [bar_keywords] is not modelled. *)
Definition plot_bars (self : WaterfallChart) (df_plot : pd.DataFrame)
    (color_kwargs : gmap string string) (bar_kwargs : gmap string KwArg) : Draw unit :=
  colors ← lift (create_color_list self df_plot color_kwargs);
  let bar_kwargs := <["width" := dict_get bar_kwargs "width" (KwNum (6 # 10))]> bar_kwargs in
  height ← lift (pd.getitem df_plot (delta_col self));
  bottom ← lift (pd.getitem df_plot (base_col self));
  call (Bar (pd.index df_plot) height bottom colors.1 bar_kwargs).

(** [s[1:-1:3] = nan]: every third position from 1 on, short of the last. *)
Definition blank_every_third (s : list (option Z)) : list (option Z) :=
  map (fun '(i, v) =>
         if (1 <=? i)%nat && (i <? length s - 1)%nat && ((i - 1) mod 3 =? 0)%nat
         then None else v)
      (enumerate s).

(** [plot_link_lines] *)
Definition plot_link_lines (self : WaterfallChart) (df_plot : pd.DataFrame)
    (line_kwargs : gmap string KwArg) : Draw unit :=
  metric ← lift (pd.getitem df_plot (metric_col self));
  let link_lines := pd.shift 2 (pd.repeat 3 metric) in
  let link_lines := blank_every_third link_lines in
  let link_lines := inner link_lines in
  let line_kwargs := <["color" := dict_get line_kwargs "color" (KwStr "grey")]> line_kwargs in
  let line_kwargs :=
    <["linestyle" := dict_get line_kwargs "linestyle" (KwStr "--")]> line_kwargs in
  call (Plot (inner (pd.repeat 3 (pd.index df_plot))) link_lines line_kwargs).

(** [add_labels] *)
Definition add_labels (self : WaterfallChart) (df_plot : pd.DataFrame)
    (bar_labels : PyVal) (color_kwargs : gmap string string) : Draw unit :=
  colors ← lift (create_color_list self df_plot color_kwargs);
  let txtcolors := colors.2 in
  label_type ← lift (check_label_type bar_labels);
  metric ← lift (pd.getitem df_plot (metric_col self));
  for_each (enumerate metric) (fun '(i, v) =>
    label ← lift (
      if String.eqb label_type "list" then
        match bar_labels with
        | PyList l => py_str <$> item l i
        | Atom _ => Err TypeError
        end
      else if String.eqb label_type "value" then
        delta ← pd.getitem df_plot (delta_col self);
        d ← item delta i;
        format_comma <$> py_int d
      else
        match bar_labels with
        | Atom (PyStr s) => Ok s
        | _ => Err TypeError
        end);
    color ← lift (item txtcolors i);
    call (Text i (scale (102 # 100) v) label color)).

(** [fig, ax = plt.subplots(figsize=figsize)] *)
Definition subplots (figsize : Q * Q) : Axes := [Subplots figsize].

(** [plot_waterfall].  The first component is the Axes as the call leaves
    it ([None] when none was passed and the call raised before making
    one); on [Ok] it is the Axes returned. *)
Definition plot_waterfall (self : WaterfallChart) (ax : option Axes) (figsize : Q * Q)
    (title : string) (bar_labels : PyVal) (color_kwargs : gmap string string)
    (bar_kwargs line_kwargs : gmap string KwArg) : option Axes * result unit :=
  match prep_plot self with
  | Err e => (ax, Err e)
  | Ok df_plot =>
      let ax := match ax with Some ax => ax | None => subplots figsize end in
      let draw : Draw unit :=
        plot_bars self df_plot color_kwargs bar_kwargs;;
        plot_link_lines self df_plot line_kwargs;;
        (if truthy bar_labels then add_labels self df_plot bar_labels color_kwargs
         else mret ());;
        call (SetXlim (-1 # 2) (inject_Z (Z.of_nat (pd.len df_plot)) - (1 # 2))%Q);;
        metric ← lift (pd.getitem df_plot (metric_col self));
        call (SetYlim 0%Q (scale (11 # 10) (pd.max metric)));;
        call (SetYlabel (metric_col self));;
        call (SetTitle title 16)
      in
      let '(ax, r) := draw ax in (Some ax, r)
  end.

(** The labels drawn on an Axes, in drawing order. *)
Definition texts (ax : Axes) : list (nat * option Q * string * string) :=
  omap (fun c => match c with Text x y s col => Some (x, y, s, col) | _ => None end) ax.

(** ** The spec's reading of roles, for comparison with [create_color_list] *)

Inductive Role : Type := start | finish | positive | negative_delta.

(** Role of row [i] in a table of [n] rows whose delta column is [delta]. *)
Definition role_of (n : nat) (delta : list (option Z)) (i : nat) : Role :=
  if (i =? 0)%nat then start
  else if (i =? n - 1)%nat then finish
  else match delta !! i with
       | Some (Some d) => if 0 <=? d then positive else negative_delta
       | _ => positive
       end.

Definition bar_color (color_kwargs : gmap string string) (r : Role) : string :=
  match r with
  | start => dict_get color_kwargs "c_bar_start" "c"
  | finish => dict_get color_kwargs "c_bar_end" "grey"
  | positive => dict_get color_kwargs "c_bar_pos" "seagreen"
  | negative_delta => dict_get color_kwargs "c_bar_neg" "salmon"
  end.

Definition text_color (color_kwargs : gmap string string) (r : Role) : string :=
  match r with
  | start => dict_get color_kwargs "c_text_start" "black"
  | finish => dict_get color_kwargs "c_text_end" "black"
  | positive => dict_get color_kwargs "c_text_pos" "darkgreen"
  | negative_delta => dict_get color_kwargs "c_text_neg" "maroon"
  end.

(** ** Auxiliary notions for the proofs *)

(** A column that does not carry the label [key]. *)
Definition other (key : string) (c : string * list (option Z)) : Prop := c.1 <> key.

(** The [ax.text] calls of a labelling loop that runs over the rows of
    [metric] with the given labels and colours, as far as the labels
    reach. *)
Definition label_texts (metric : list (option Z)) (labels colors : list string)
    : list Call :=
  zip_with (fun '(i, v) '(s, c) => Text i (scale (102 # 100) v) s c)
           (enumerate metric) (zip labels colors).

(** ** Closed forms of the table's columns *)

(** The delta column over the input rows: the first value, then the
    successive differences. *)
Definition deltas_of (vs : list Z) : list Z :=
  match vs with
  | [] => []
  | v :: t => v :: zip_with Z.sub t vs
  end.

(** The three columns of the table built from a non-empty [vs]: the
    synthetic trailing row repeats the last input value as value and as
    delta, and stands on base 0. *)
Definition final_of (vs : list Z) : Z := default 0 (last vs).

Definition value_column (vs : list Z) : list (option Z) :=
  map Some (vs ++ [final_of vs]).

Definition delta_column (vs : list Z) : list (option Z) :=
  map Some (deltas_of vs ++ [final_of vs]).

Definition base_column (vs : list Z) : list (option Z) :=
  map Some (0 :: removelast vs ++ [0]).

(** The table [prep_plot] is shown to return.  A metric name equal to the
    base column's makes the class overwrite its own value column. *)
Definition table (self : WaterfallChart) : pd.DataFrame :=
  {| pd.index := step_names self ++ [last_step_label self];
     pd.columns :=
       if decide (metric_col self = "base")
       then [("base", base_column (step_values self));
             ("delta", delta_column (step_values self))]
       else [(metric_col self, value_column (step_values self));
             ("delta", delta_column (step_values self));
             ("base", base_column (step_values self))] |}.

(** The column found under the metric name. *)
Definition metric_column (self : WaterfallChart) : list (option Z) :=
  if decide (metric_col self = "base") then base_column (step_values self)
  else value_column (step_values self).

(** The palette applied to the roles of the rows. *)
Definition bar_colors (color_kwargs : gmap string string) (delta : list (option Z))
    : list string :=
  map (fun i => bar_color color_kwargs (role_of (length delta) delta i))
      (seq 0 (length delta)).

Definition text_colors (color_kwargs : gmap string string) (delta : list (option Z))
    : list string :=
  map (fun i => text_color color_kwargs (role_of (length delta) delta i))
      (seq 0 (length delta)).

(** The labels the labelling loop asks for, row by row: the entries of an
    explicit list, the formatted deltas for a boolean, the same string on
    every row for a string. *)
Definition wanted_labels (self : WaterfallChart) (bar_labels : PyVal) : list string :=
  match bar_labels with
  | PyList l => map py_str l
  | Atom (PyBool _) =>
      map format_comma (deltas_of (step_values self) ++ [final_of (step_values self)])
  | Atom (PyStr s) => replicate (S (length (step_values self))) s
  | Atom _ => []
  end.

(** The calls a rendering of [table self] issues. *)
Definition bar_call (self : WaterfallChart) (color_kwargs : gmap string string)
    (bar_kwargs : gmap string KwArg) : Call :=
  Bar (step_names self ++ [last_step_label self])
      (delta_column (step_values self)) (base_column (step_values self))
      (bar_colors color_kwargs (delta_column (step_values self)))
      (<["width" := dict_get bar_kwargs "width" (KwNum (6 # 10))]> bar_kwargs).

Definition line_call (self : WaterfallChart) (line_kwargs : gmap string KwArg) : Call :=
  let line_kwargs := <["color" := dict_get line_kwargs "color" (KwStr "grey")]> line_kwargs in
  Plot (inner (pd.repeat 3 (step_names self ++ [last_step_label self])))
       (inner (blank_every_third (pd.shift 2 (pd.repeat 3 (metric_column self)))))
       (<["linestyle" := dict_get line_kwargs "linestyle" (KwStr "--")]> line_kwargs).

Definition format_calls (self : WaterfallChart) (title : string) : list Call :=
  [SetXlim (-1 # 2) (inject_Z (Z.of_nat (S (length (step_values self)))) - (1 # 2))%Q;
   SetYlim 0%Q (scale (11 # 10) (pd.max (metric_column self)));
   SetYlabel (metric_col self);
   SetTitle title 16].

(** Running totals of a list, as [numpy.cumsum] gives them. *)
Fixpoint cumsum_from (acc : Z) (l : list Z) : list Z :=
  match l with
  | [] => []
  | x :: l' => (acc + x) :: cumsum_from (acc + x) l'
  end.

Definition cumsum (l : list Z) : list Z := cumsum_from 0 l.

(** The names [get_colors] looks up. *)
Definition color_keys : list string :=
  ["c_bar_pos"; "c_bar_neg"; "c_bar_start"; "c_bar_end";
   "c_text_pos"; "c_text_neg"; "c_text_start"; "c_text_end"].

(** ** Exact cells *)

(** The integers float64 holds exactly: magnitude at most 2^53. *)
Definition float64_exact (z : Z) : Prop :=
  -9007199254740992 ≤ z ≤ 9007199254740992.

(** Step values whose table pandas computes without rounding: the values
    and their successive differences are held exactly.  The int64
    subtraction of [Series.diff] does not wrap on them either. *)
Definition exact_inputs (vs : list Z) : Prop :=
  Forall float64_exact vs ∧ Forall float64_exact (deltas_of vs).

(** The arguments [plot_bars] passes to [ax.bar] by keyword itself.  A
    [bar_kwargs] that holds one of them repeats a keyword argument, and
    Python raises a TypeError at the call. *)
Definition bar_keywords : list string := ["x"; "height"; "bottom"; "color"].

(** ** The table over float64 cells *)

(** Lines 63-70 of [prep_plot] for step values given as Python floats:
    the value, delta and base columns, cell by cell in binary64.  [None]
    is the [IndexError] of [step_values[-1]] on an empty list. *)
Module float64.

Definition diff (s : list float) : list float :=
  match s with
  | [] => []
  | _ :: t => nan :: zip_with PrimFloat.sub t s
  end.

Definition fillna_series (s other : list float) : list float :=
  zip_with (λ x o, if is_nan x then o else x) s other.

Definition shift (s : list float) : list float := take (length s) (nan :: s).

Definition fillna (c : float) (s : list float) : list float :=
  map (λ x, if is_nan x then c else x) s.

Definition prep_plot (step_values : list float)
  : option (list float * list float * list float) :=
  let step_deltas := fillna_series (diff step_values) step_values in
  final ← last step_values;
  let metric := step_values ++ [final] in
  let delta := step_deltas ++ [final] in
  let base := fillna 0%float (shift metric) in
  let base := removelast base ++ [0%float] in
  Some (metric, delta, base).

End float64.

(** ** Worked examples *)

Example prep_plot_readme :
  prep_plot (init [100; 120; 90; 130] [] EmptyString EmptyString)
  = Ok {| pd.index := ["Step_1"; "Step_2"; "Step_3"; "Step_4"; "Final Value"];
          pd.columns :=
            [("Value", [Some 100; Some 120; Some 90; Some 130; Some 130]);
             ("delta", [Some 100; Some 20; Some (-30); Some 40; Some 130]);
             ("base", [Some 0; Some 100; Some 120; Some 90; Some 0])] |}.
Proof. vm_compute. reflexivity. Qed.

Example prep_plot_single :
  prep_plot (init [50] [] EmptyString EmptyString)
  = Ok {| pd.index := ["Step_1"; "Final Value"];
          pd.columns :=
            [("Value", [Some 50; Some 50]);
             ("delta", [Some 50; Some 50]);
             ("base", [Some 0; Some 0])] |}.
Proof. vm_compute. reflexivity. Qed.

Example plot_waterfall_readme_labels :
  from_option texts []
    (plot_waterfall (init [100; 120; 90; 130] [] EmptyString EmptyString)
       None (10, 5)%Q EmptyString (Atom (PyBool true)) ∅ ∅ ∅).1
  = [(0%nat, Some (10200 # 100)%Q, "100", "black");
     (1%nat, Some (12240 # 100)%Q, "20", "darkgreen");
     (2%nat, Some (9180 # 100)%Q, "-30", "maroon");
     (3%nat, Some (13260 # 100)%Q, "40", "darkgreen");
     (4%nat, Some (13260 # 100)%Q, "130", "black")].
Proof. vm_compute. reflexivity. Qed.

(** * Properties *)

(** ** The pandas operations on the class's data *)

Lemma fillna_diff_aux (t u : list Z) :
  zip_with (fun x o : option Z => match x with Some _ => x | None => o end)
    (zip_with pd.sub_nan (map Some t) (map Some u)) (map Some t)
  = map Some (zip_with Z.sub t u).
Proof.
  revert u. induction t as [|a t IH]; intros [|b u]; simpl; try reflexivity.
  f_equal. apply IH.
Qed.

Lemma fillna_diff (vs : list Z) :
  pd.fillna_series (pd.diff (map Some vs)) (map Some vs) = map Some (deltas_of vs).
Proof.
  destruct vs as [|v t]; [reflexivity|].
  unfold pd.fillna_series. simpl. f_equal. apply (fillna_diff_aux t (v :: t)).
Qed.

Lemma length_deltas_of vs : length (deltas_of vs) = length vs.
Proof.
  destruct vs as [|v t]; [reflexivity|]. simpl. f_equal.
  rewrite length_zip_with. simpl. lia.
Qed.

Lemma shift1_fillna0 (s : list Z) (x : Z) :
  pd.fillna 0 (pd.shift 1 (map Some (s ++ [x]))) = map Some (0 :: s).
Proof.
  unfold pd.shift, pd.fillna. simpl replicate.
  rewrite length_map, length_app. simpl length.
  change ([None] ++ map Some (s ++ [x])) with (None :: map Some (s ++ [x])).
  rewrite map_app. replace (length s + 1)%nat with (S (length s)) by lia.
  rewrite firstn_cons. simpl. f_equal.
  rewrite take_app_length'; [|by rewrite length_map].
  rewrite map_map. reflexivity.
Qed.

Lemma DataFrame_transpose_ok r1 r2 cols i1 i2 :
  length r1 = length cols → length r2 = length cols →
  pd.DataFrame_transpose [r1; r2] cols [i1; i2]
  = Ok {| pd.index := cols; pd.columns := [(i1, r1); (i2, r2)] |}.
Proof.
  intros H1 H2. unfold pd.DataFrame_transpose. cbn [map foldr length].
  rewrite H1, H2, Nat.max_0_r, Nat.max_id, Nat.eqb_refl. cbn [negb Nat.eqb].
  rewrite Nat.sub_diag. cbn [replicate zip zip_with]. by rewrite !app_nil_r.
Qed.

Lemma DataFrame_transpose_mismatch r1 r2 cols idx :
  length r1 = length r2 → length cols ≠ length r1 →
  ∃ msg, pd.DataFrame_transpose [r1; r2] cols idx = Err (ValueError msg).
Proof.
  intros H1 H2. unfold pd.DataFrame_transpose. cbn [map foldr length].
  rewrite <- H1, Nat.max_0_r, Nat.max_id.
  destruct (Nat.eqb_spec (length cols) (length r1)) as [E|_]; [done|].
  cbn [negb]. eauto.
Qed.

(** ** Columns are found by name *)

Lemma filter_other key cols :
  Forall (other key) cols → filter (λ c : string * list (option Z), c.1 = key) cols = [].
Proof.
  induction 1 as [|c cols Hc _ IH]; [done|].
  rewrite filter_cons. unfold other in Hc. by rewrite decide_False.
Qed.

Lemma getitem_unique idx pre key c post :
  Forall (other key) pre → Forall (other key) post →
  pd.getitem {| pd.index := idx; pd.columns := pre ++ (key, c) :: post |} key = Ok c.
Proof.
  intros Hpre Hpost. unfold pd.getitem. cbn [pd.columns].
  rewrite filter_app, filter_cons, decide_True by done.
  by rewrite !filter_other.
Qed.

Lemma getitem_twice idx key c1 c2 post :
  ∃ msg, pd.getitem {| pd.index := idx; pd.columns := (key, c1) :: (key, c2) :: post |} key
         = Err (ValueError msg).
Proof.
  unfold pd.getitem. cbn [pd.columns].
  rewrite !filter_cons, !decide_True by done. eauto.
Qed.

Lemma existsb_other key cols :
  Forall (other key) cols →
  existsb (λ c : string * list (option Z), bool_decide (c.1 = key)) cols = false.
Proof.
  induction 1 as [|c cols Hc _ IH]; [done|].
  cbn. rewrite IH. unfold other in Hc. by rewrite bool_decide_eq_false_2.
Qed.

Lemma map_other key v cols :
  Forall (other key) cols →
  map (λ c : string * list (option Z), if bool_decide (c.1 = key) then (key, v) else c) cols
  = cols.
Proof.
  induction 1 as [|c cols Hc _ IH]; [done|].
  cbn. rewrite IH. unfold other in Hc. by rewrite bool_decide_eq_false_2.
Qed.

Lemma setitem_new idx cols key v :
  length v = length idx → Forall (other key) cols →
  pd.setitem {| pd.index := idx; pd.columns := cols |} key v
  = Ok {| pd.index := idx; pd.columns := cols ++ [(key, v)] |}.
Proof.
  intros Hlen Hcols. unfold pd.setitem, pd.len. cbn [pd.index pd.columns].
  by rewrite Hlen, Nat.eqb_refl, existsb_other.
Qed.

Lemma setitem_replace idx pre key c post v :
  length v = length idx → Forall (other key) pre → Forall (other key) post →
  pd.setitem {| pd.index := idx; pd.columns := pre ++ (key, c) :: post |} key v
  = Ok {| pd.index := idx; pd.columns := pre ++ (key, v) :: post |}.
Proof.
  intros Hlen Hpre Hpost. unfold pd.setitem, pd.len. cbn [pd.index pd.columns].
  rewrite Hlen, Nat.eqb_refl. cbn [negb].
  rewrite existsb_app. cbn [existsb fst]. rewrite bool_decide_eq_true_2 by done.
  rewrite orb_true_r, map_app. cbn [map fst].
  by rewrite bool_decide_eq_true_2, !map_other.
Qed.

Ltac others := repeat constructor; unfold other; cbn [fst]; congruence.

Tactic Notation "by_name" uconstr(lem) :=
  let H := fresh in
  epose proof lem as H; cbn [app] in H;
  rewrite H by (congruence || others); clear H;
  cbn [app mbind result_bind].

(** ** The columns in closed form *)

Lemma length_value_column vs : length (value_column vs) = S (length vs).
Proof. unfold value_column. rewrite length_map, length_app. cbn. lia. Qed.

Lemma length_delta_column vs : length (delta_column vs) = S (length vs).
Proof. unfold delta_column. rewrite length_map, length_app, length_deltas_of. cbn. lia. Qed.

Lemma length_base_column vs : vs ≠ [] → length (base_column vs) = S (length vs).
Proof.
  intros H. destruct (exists_last H) as (l & x & ->).
  unfold base_column. rewrite removelast_last. cbn.
  rewrite length_map, !length_app. cbn. lia.
Qed.

Lemma shift_value_column vs :
  vs ≠ [] →
  but_last (pd.fillna 0 (pd.shift 1 (value_column vs))) ++ [Some 0] = base_column vs.
Proof.
  intros H. destruct (exists_last H) as (l & x & ->).
  unfold value_column, base_column, but_last. rewrite shift1_fillna0, removelast_last.
  change (map Some (0 :: l ++ [x])) with (Some 0 :: map Some (l ++ [x])).
  rewrite map_app.
  change (Some 0 :: map Some l ++ map Some [x]) with ((Some 0 :: map Some l) ++ [Some x]).
  rewrite removelast_last. cbn. by rewrite map_app.
Qed.

Lemma length_shift_fillna k c s : length (pd.fillna c (pd.shift k s)) = length s.
Proof.
  unfold pd.fillna, pd.shift. rewrite length_map, length_take, length_app. lia.
Qed.

(** Rows of the closed-form columns. *)

Lemma value_column_row vs i v :
  vs !! i = Some v → value_column vs !! i = Some (Some v).
Proof.
  intros H. unfold value_column. rewrite list_lookup_fmap, lookup_app_l, H; [done|].
  by eapply lookup_lt_Some.
Qed.

Lemma value_column_final vs :
  value_column vs !! length vs = Some (Some (final_of vs)).
Proof.
  unfold value_column. rewrite list_lookup_fmap, lookup_app_r by lia.
  by rewrite Nat.sub_diag.
Qed.

Lemma delta_column_first vs v :
  vs !! 0%nat = Some v → delta_column vs !! 0%nat = Some (Some v).
Proof. destruct vs; intros [= ->]. reflexivity. Qed.

Lemma delta_column_row vs i v p :
  vs !! S i = Some v → vs !! i = Some p → delta_column vs !! S i = Some (Some (v - p)).
Proof.
  intros Hv Hp. unfold delta_column.
  rewrite list_lookup_fmap, lookup_app_l
    by (rewrite length_deltas_of; by eapply lookup_lt_Some).
  destruct vs as [|a t]; [done|]. cbn [deltas_of]. cbn in Hv.
  rewrite lookup_cons.
  assert (H : zip_with Z.sub t (a :: t) !! i = Some (v - p))
    by (apply lookup_zip_with_Some; eauto).
  by rewrite H.
Qed.

Lemma delta_column_final vs :
  delta_column vs !! length vs = Some (Some (final_of vs)).
Proof.
  unfold delta_column.
  rewrite list_lookup_fmap, lookup_app_r by (rewrite length_deltas_of; lia).
  by rewrite length_deltas_of, Nat.sub_diag.
Qed.

Lemma base_column_first vs : base_column vs !! 0%nat = Some (Some 0).
Proof. reflexivity. Qed.

Lemma base_column_row vs i v p :
  vs !! S i = Some v → vs !! i = Some p → base_column vs !! S i = Some (Some p).
Proof.
  intros Hv Hp. apply lookup_lt_Some in Hv as Hlt.
  assert (Hne : vs ≠ []) by (intros ->; cbn in Hlt; lia).
  destruct (exists_last Hne) as (l & x & ->).
  unfold base_column. rewrite removelast_last.
  rewrite length_app in Hlt. cbn in Hlt.
  rewrite lookup_app_l in Hp by lia.
  rewrite list_lookup_fmap, lookup_cons, lookup_app_l by lia. by rewrite Hp.
Qed.

Lemma base_column_final vs :
  vs ≠ [] → base_column vs !! length vs = Some (Some 0).
Proof.
  intros Hne. destruct (exists_last Hne) as (l & x & ->).
  unfold base_column. rewrite removelast_last, list_lookup_fmap, length_app.
  cbn [length]. replace (length l + 1)%nat with (S (length l)) by lia.
  rewrite lookup_cons, lookup_app_r by lia. by rewrite Nat.sub_diag.
Qed.

Lemma final_of_last vs : vs ≠ [] → last vs = Some (final_of vs).
Proof.
  intros Hne. destruct (exists_last Hne) as (l & x & ->).
  unfold final_of. by rewrite last_snoc.
Qed.

(** ** The table of a well-formed chart *)

Section PrepPlot.
Variable self : WaterfallChart.
Hypothesis Hdelta : delta_col self = "delta".
Hypothesis Hbase : base_col self = "base".

Lemma prep_plot_empty : step_values self = [] → prep_plot self = Err IndexError.
Proof. intros H. unfold prep_plot. by rewrite H. Qed.

Lemma last_item_final :
  step_values self ≠ [] → last_item (step_values self) = Ok (final_of (step_values self)).
Proof. intros H. unfold last_item. by rewrite final_of_last. Qed.

Lemma prep_plot_rows :
  step_values self ≠ [] →
  prep_plot self
  = (df_plot ← pd.DataFrame_transpose
                 [value_column (step_values self); delta_column (step_values self)]
                 (step_names self ++ [last_step_label self])
                 [metric_col self; delta_col self];
     metric ← pd.getitem df_plot (metric_col self);
     df_plot ← pd.setitem df_plot (base_col self) (pd.fillna 0 (pd.shift 1 metric));
     base ← pd.getitem df_plot (base_col self);
     pd.setitem df_plot (base_col self) (but_last base ++ [Some 0])).
Proof.
  intros H. unfold prep_plot. rewrite last_item_final by done.
  cbn [mbind result_bind]. rewrite fillna_diff.
  replace (map Some (deltas_of (step_values self)) ++ [Some (final_of (step_values self))])
    with (delta_column (step_values self)) by (unfold delta_column; by rewrite map_app).
  reflexivity.
Qed.

Lemma prep_plot_misaligned :
  step_values self ≠ [] → length (step_names self) ≠ length (step_values self) →
  ∃ msg, prep_plot self = Err (ValueError msg).
Proof.
  intros Hvalues Hnames. rewrite prep_plot_rows by done.
  destruct (DataFrame_transpose_mismatch
              (value_column (step_values self)) (delta_column (step_values self))
              (step_names self ++ [last_step_label self])
              [metric_col self; delta_col self]) as [msg ->].
  - by rewrite length_value_column, length_delta_column.
  - rewrite length_value_column, length_app. cbn. lia.
  - by exists msg.
Qed.

Lemma index_length :
  length (step_names self) = length (step_values self) →
  length (step_names self ++ [last_step_label self]) = S (length (step_values self)).
Proof. intros H. rewrite length_app, H. cbn. lia. Qed.

Lemma prep_plot_metric_delta :
  step_values self ≠ [] → length (step_names self) = length (step_values self) →
  metric_col self = "delta" →
  ∃ msg, prep_plot self = Err (ValueError msg).
Proof.
  intros Hvalues Hnames Hmetric. apply index_length in Hnames.
  rewrite prep_plot_rows by done.
  rewrite DataFrame_transpose_ok
    by (by rewrite ?length_value_column, ?length_delta_column).
  rewrite Hdelta, Hmetric. cbn [mbind result_bind].
  destruct (getitem_twice (step_names self ++ [last_step_label self]) "delta"
              (value_column (step_values self)) (delta_column (step_values self)) [])
    as [msg ->].
  by exists msg.
Qed.

Lemma prep_plot_table :
  step_values self ≠ [] → length (step_names self) = length (step_values self) →
  metric_col self ≠ "delta" →
  prep_plot self = Ok (table self).
Proof.
  intros Hvalues Hnames Hmetric. apply index_length in Hnames as Hidx.
  pose proof (shift_value_column _ Hvalues) as HB.
  pose proof (length_value_column (step_values self)) as HlV.
  pose proof (length_delta_column (step_values self)) as HlD.
  pose proof (length_base_column _ Hvalues) as HlB.
  pose proof (length_shift_fillna 1 0 (value_column (step_values self))) as HlS.
  rewrite prep_plot_rows by done.
  rewrite DataFrame_transpose_ok by congruence.
  rewrite Hdelta, Hbase. cbn [mbind result_bind].
  by_name (getitem_unique _ [] _ _ [_]).
  unfold table.
  destruct (decide (metric_col self = "base")) as [Hm|Hm].
  - rewrite Hm.
    by_name (setitem_replace _ [] _ _ [_]).
    by_name (getitem_unique _ [] _ _ [_]).
    rewrite HB.
    by by_name (setitem_replace _ [] _ _ [_]).
  - by_name (setitem_new _ [_; _]).
    by_name (getitem_unique _ [_; _] _ _ []).
    rewrite HB.
    by by_name (setitem_replace _ [_; _] _ _ []).
Qed.

(** What the table holds under each column name. *)
Lemma table_len :
  length (step_names self) = length (step_values self) →
  pd.len (table self) = S (length (step_values self)).
Proof. intros H. unfold pd.len, table. cbn. by apply index_length. Qed.

Lemma table_delta :
  metric_col self ≠ "delta" →
  pd.getitem (table self) "delta" = Ok (delta_column (step_values self)).
Proof.
  intros Hmetric. unfold table. case_decide.
  - by by_name (getitem_unique _ [_] _ _ []).
  - by by_name (getitem_unique _ [_] _ _ [_]).
Qed.

Lemma table_base :
  pd.getitem (table self) "base" = Ok (base_column (step_values self)).
Proof.
  unfold table. case_decide.
  - by by_name (getitem_unique _ [] _ _ [_]).
  - by by_name (getitem_unique _ [_; _] _ _ []).
Qed.

Lemma table_metric :
  metric_col self ≠ "delta" → metric_col self ≠ "base" →
  pd.getitem (table self) (metric_col self) = Ok (value_column (step_values self)).
Proof.
  intros Hmetric Hm. unfold table. rewrite decide_False by done.
  by by_name (getitem_unique _ [] _ _ [_; _]).
Qed.
End PrepPlot.

(** ** Charts as [__init__] builds them *)

Lemma init_names_aligned vs names metric last_label :
  names = [] ∨ length names = length vs →
  length (step_names (init vs names metric last_label)) = length vs.
Proof.
  intros [-> | H]; [|destruct names]; cbn; by rewrite ?length_map, ?length_seq.
Qed.

Lemma init_names_misaligned vs names metric last_label :
  names ≠ [] → length names ≠ length vs →
  length (step_names (init vs names metric last_label)) ≠ length vs.
Proof. intros Hne H. by destruct names. Qed.

Lemma init_metric_col metric vs names last_label (key : string) :
  key ≠ "Value" → metric ≠ key → metric_col (init vs names metric last_label) ≠ key.
Proof.
  intros Hk H. cbn. destruct (String.eqb_spec metric EmptyString); congruence.
Qed.

Lemma prep_plot_init vs names metric last_label :
  vs ≠ [] → names = [] ∨ length names = length vs → metric ≠ "delta" →
  prep_plot (init vs names metric last_label) = Ok (table (init vs names metric last_label)).
Proof.
  intros Hvs Hnames Hmetric. apply prep_plot_table; try done.
  - by apply init_names_aligned.
  - by apply init_metric_col.
Qed.

(** A table comes out only of a well-formed chart. *)
Lemma prep_plot_init_inv vs names metric last_label df :
  prep_plot (init vs names metric last_label) = Ok df →
  vs ≠ [] ∧ length (step_names (init vs names metric last_label)) = length vs
  ∧ metric_col (init vs names metric last_label) ≠ "delta"
  ∧ df = table (init vs names metric last_label).
Proof.
  intros H.
  assert (Hvs : vs ≠ []).
  { intros ->. by rewrite prep_plot_empty in H. }
  set (self := init vs names metric last_label) in *.
  destruct (decide (length (step_names self) = length vs)) as [Hn|Hn]; cycle 1.
  { destruct (prep_plot_misaligned self Hvs Hn) as [msg E]. congruence. }
  destruct (decide (metric_col self = "delta")) as [Hm|Hm].
  { destruct (prep_plot_metric_delta self eq_refl Hvs Hn Hm) as [msg E]. congruence. }
  rewrite (prep_plot_table self eq_refl eq_refl Hvs Hn Hm) in H.
  by injection H as <-.
Qed.







(** C3: when the step names are non-empty and their number differs from
    the number of step values, building the table fails with a
    ValueError (raised by the DataFrame constructor) and no table comes
    out.  The step values are non-empty, as the class requires. *)
Theorem prep_plot_names_mismatch (vs : list Z) (names : list string) (metric last_label : string) :
  vs ≠ [] → names ≠ [] → length names ≠ length vs →
  ∃ msg, prep_plot (init vs names metric last_label) = Err (ValueError msg).
Proof.
  intros Hvs Hne Hlen. apply prep_plot_misaligned; [done|].
  by apply init_names_misaligned.
Qed.

Lemma prep_plot_names_mismatch_witness :
  ∃ msg, prep_plot (init [100; 120; 90] ["a"; "b"] EmptyString EmptyString)
         = Err (ValueError msg).
Proof.
  apply (prep_plot_names_mismatch [100; 120; 90] ["a"; "b"] EmptyString EmptyString).
  - discriminate.
  - discriminate.
  - cbn. lia.
Defined.




(** ** Colours *)

Lemma map_seq_lookup {A B} (g : A → B) (h : nat → B) (l : list A) (k : nat) :
  (∀ j x, l !! j = Some x → h (k + j)%nat = g x) →
  map h (seq k (length l)) = map g l.
Proof.
  revert k. induction l as [|a l IH]; intros k H; [done|].
  cbn. f_equal.
  - rewrite <- (H 0%nat a eq_refl). f_equal. lia.
  - apply IH. intros j x Hj. rewrite <- (H (S j) x Hj). f_equal. lia.
Qed.

Lemma inner_snoc {A} (a z : A) (mid : list A) : inner (a :: mid ++ [z]) = mid.
Proof. unfold inner. cbn [tail]. apply removelast_last. Qed.

Lemma two_ends {A} (l : list A) :
  (2 ≤ length l)%nat → ∃ a mid z, l = a :: mid ++ [z].
Proof.
  intros H. destruct l as [|a t]; [cbn in H; lia|].
  assert (Ht : t ≠ []) by (intros ->; cbn in H; lia).
  destruct (exists_last Ht) as (mid & z & ->). eauto.
Qed.

Lemma length_inner {A} (l : list A) : length (inner l) = (length l - 2)%nat.
Proof.
  destruct l as [|a [|b t]]; try done.
  destruct (two_ends (a :: b :: t)) as (a' & mid & z & E); [cbn; lia|].
  rewrite E, inner_snoc. cbn. rewrite length_app. cbn. lia.
Qed.

Lemma colors_by_role (color : Role → string) (delta : list (option Z)) :
  (2 ≤ length delta)%nat →
  [color start]
    ++ map (λ x, if negative x then color negative_delta else color positive) (inner delta)
    ++ [color finish]
  = map (λ i, color (role_of (length delta) delta i)) (seq 0 (length delta)).
Proof.
  intros H. destruct (two_ends delta H) as (a & mid & z & ->).
  rewrite inner_snoc. cbn [length]. rewrite length_app. cbn [length].
  replace (length mid + 1)%nat with (S (length mid)) by lia.
  rewrite seq_S. cbn [seq map app]. rewrite map_app. cbn [map].
  f_equal. rewrite <- seq_shift, map_map. f_equal.
  - symmetry. apply (map_seq_lookup _ _ mid 0). intros j x Hj.
    apply lookup_lt_Some in Hj as Hlt. unfold role_of.
    change (0 + j)%nat with j.
    destruct (Nat.eqb_spec (S j) 0); [lia|].
    destruct (Nat.eqb_spec (S j) (S (S (length mid)) - 1)); [lia|].
    rewrite lookup_cons, lookup_app_l, Hj by (cbn; lia).
    destruct x as [d|]; [cbn|done].
    destruct (Z.leb_spec 0 d), (Z.ltb_spec d 0); (done || lia).
  - f_equal. unfold role_of. change (0 + S (length mid))%nat with (S (length mid)).
    destruct (Nat.eqb_spec (S (length mid)) 0); [lia|].
    destruct (Nat.eqb_spec (S (length mid)) (S (S (length mid)) - 1)); [done|lia].
Qed.

Lemma create_color_list_by_role self df color_kwargs delta :
  pd.getitem df (delta_col self) = Ok delta → (2 ≤ length delta)%nat →
  create_color_list self df color_kwargs
  = Ok (map (λ i, bar_color color_kwargs (role_of (length delta) delta i))
            (seq 0 (length delta)),
        map (λ i, text_color color_kwargs (role_of (length delta) delta i))
            (seq 0 (length delta))).
Proof.
  intros Hdelta Hlen. unfold create_color_list, get_colors.
  rewrite Hdelta. cbn [mbind result_bind mret result_ret].
  by rewrite <- (colors_by_role (bar_color color_kwargs)),
             <- (colors_by_role (text_color color_kwargs)).
Qed.

(** C4: on every table the transform produces, the colour lists are the
    palette applied to the roles, where row 0 is "start" whatever its
    delta, the last row is "end", and an interior row is "positive" when
    its delta is >= 0 and "negative" otherwise; under the default
    palette a negative interior delta is drawn salmon with maroon text. *)
Theorem create_color_list_roles (vs : list Z) (names : list string)
    (metric last_label : string) (df : pd.DataFrame) (color_kwargs : gmap string string) :
  let self := init vs names metric last_label in
  prep_plot self = Ok df →
  ∃ delta,
    pd.getitem df (delta_col self) = Ok delta
    ∧ length delta = pd.len df
    ∧ create_color_list self df color_kwargs
      = Ok (map (λ i, bar_color color_kwargs (role_of (pd.len df) delta i))
                (seq 0 (pd.len df)),
            map (λ i, text_color color_kwargs (role_of (pd.len df) delta i))
                (seq 0 (pd.len df)))
    ∧ role_of (pd.len df) delta 0 = start
    ∧ role_of (pd.len df) delta (pd.len df - 1) = finish
    ∧ (∀ (i : nat) (d : Z),
         (0 < i < pd.len df - 1)%nat → delta !! i = Some (Some d) →
         role_of (pd.len df) delta i = if 0 <=? d then positive else negative_delta)
    ∧ bar_color ∅ negative_delta = "salmon"
    ∧ text_color ∅ negative_delta = "maroon".
Proof.
  intros self H. subst self.
  apply prep_plot_init_inv in H as (Hvs & Hnames & Hmetric & ->).
  set (self := init vs names metric last_label) in *.
  exists (delta_column vs).
  assert (Hlen : length (delta_column vs) = pd.len (table self)).
  { by rewrite length_delta_column, (table_len self). }
  split; [by apply (table_delta self)|].
  split; [done|].
  rewrite <- Hlen.
  split.
  { apply create_color_list_by_role; [by apply (table_delta self)|].
    rewrite length_delta_column. destruct vs; [done|cbn; lia]. }
  split; [done|].
  split.
  { unfold role_of. rewrite length_delta_column. cbn [Nat.sub].
    destruct vs; [done|]. cbn [length Nat.eqb]. by rewrite Nat.sub_0_r, Nat.eqb_refl. }
  split; [|done].
  intros i d [Hi1 Hi2] Hd. unfold role_of.
  destruct (Nat.eqb_spec i 0); [lia|].
  destruct (Nat.eqb_spec i (length (delta_column vs) - 1)); [lia|].
  by rewrite Hd.
Qed.

Lemma create_color_list_roles_witness :
  ∃ delta,
    pd.getitem (table (init [100; 120; 90; 130] [] EmptyString EmptyString)) "delta"
    = Ok delta
    ∧ create_color_list (init [100; 120; 90; 130] [] EmptyString EmptyString)
        (table (init [100; 120; 90; 130] [] EmptyString EmptyString)) ∅
      = Ok (["c"; "seagreen"; "salmon"; "seagreen"; "grey"],
            ["black"; "darkgreen"; "maroon"; "darkgreen"; "black"]).
Proof.
  destruct (create_color_list_roles [100; 120; 90; 130] [] EmptyString EmptyString
              (table (init [100; 120; 90; 130] [] EmptyString EmptyString)) ∅)
    as (delta & Hd & _ & Hc & _).
  - vm_compute. reflexivity.
  - exists delta. split; [exact Hd|].
    rewrite Hc. vm_compute in Hd. injection Hd as <-. vm_compute. reflexivity.
Defined.

(** ** Drawing *)

Lemma bind_lift_ok {A B} (a : A) (k : A → Draw B) (ax : Axes) :
  (lift (Ok a) ≫= k) ax = k a ax.
Proof. reflexivity. Qed.

Lemma bind_lift_err {A B} (e : PyError) (k : A → Draw B) (ax : Axes) :
  (lift (Err e) ≫= k) ax = (ax, Err e).
Proof. reflexivity. Qed.

Lemma bind_unfold {A B} (m : Draw A) (k : A → Draw B) (ax : Axes) :
  (m ≫= k) ax
  = match m ax with
    | (ax', Ok a) => k a ax'
    | (ax', Err e) => (ax', Err e)
    end.
Proof. reflexivity. Qed.

Lemma bind_lift_unfold {A B} (r : result A) (k : A → Draw B) (ax : Axes) :
  (lift r ≫= k) ax
  = match r with
    | Ok a => k a ax
    | Err e => (ax, Err e)
    end.
Proof. by destruct r. Qed.

Lemma bind_call {B} (c : Call) (k : unit → Draw B) (ax : Axes) :
  (call c ≫= k) ax = k () (ax ++ [c]).
Proof. reflexivity. Qed.

Lemma item_cons_S {A} (a : A) (l : list A) (i : nat) : item (a :: l) (S i) = item l i.
Proof. reflexivity. Qed.

Lemma item_fmap {A B} (f : A → B) (l : list A) (i : nat) :
  f <$> item l i = item (map f l) i.
Proof. unfold item. rewrite list_lookup_fmap. by destruct (l !! i). Qed.

Lemma item_replicate {A} (a : A) (n i : nat) :
  (i < n)%nat → item (replicate n a) i = Ok a.
Proof. intros H. unfold item. by rewrite lookup_replicate_2. Qed.

Lemma for_each_cons {A} (x : A) (l : list A) (body : A → Draw unit) (ax : Axes) :
  for_each (x :: l) body ax
  = match body x ax with
    | (ax', Ok _) => for_each l body ax'
    | (ax', Err e) => (ax', Err e)
    end.
Proof. reflexivity. Qed.

Lemma label_step (lab col : result string) (i : nat) (v : option Z) (ax : Axes) :
  (label ← lift lab; color ← lift col; call (Text i (scale (102 # 100) v) label color)) ax
  = match lab, col with
    | Ok s, Ok c => (ax ++ [Text i (scale (102 # 100) v) s c], Ok ())
    | Ok _, Err e => (ax, Err e)
    | Err e, _ => (ax, Err e)
    end.
Proof. by destruct lab, col. Qed.

(** The labelling loop: one [ax.text] per row while the labels last, then
    an [IndexError] if rows are left over. *)
Lemma for_each_labels (lab col : nat → result string) (metric : list (option Z)) :
  ∀ (k : nat) (labels colors : list string) (ax : Axes),
    (∀ j, (j < length metric)%nat → lab (k + j)%nat = item labels j) →
    (∀ j, (j < length metric)%nat → col (k + j)%nat = item colors j) →
    (length metric ≤ length colors)%nat →
    for_each (zip (seq k (length metric)) metric)
      (λ '(i, v), label ← lift (lab i); color ← lift (col i);
                  call (Text i (scale (102 # 100) v) label color)) ax
    = (ax ++ zip_with (λ '(i, v) '(s, c), Text i (scale (102 # 100) v) s c)
                      (zip (seq k (length metric)) metric) (zip labels colors),
       if decide (length labels < length metric)%nat then Err IndexError else Ok ()).
Proof.
  induction metric as [|v metric IH]; intros k labels colors ax Hlab Hcol Hlen.
  - cbn. rewrite app_nil_r. by case_decide; [cbn in *; lia|].
  - cbn [length seq zip zip_with]. rewrite for_each_cons, label_step.
    pose proof (Hlab 0%nat ltac:(cbn; lia)) as Hl0.
    pose proof (Hcol 0%nat ltac:(cbn; lia)) as Hc0.
    rewrite Nat.add_0_r in Hl0, Hc0. rewrite Hl0, Hc0.
    destruct colors as [|c colors]; [cbn in Hlen; lia|].
    destruct labels as [|s labels].
    + cbn. rewrite app_nil_r. by rewrite decide_True by lia.
    + cbn [item lookup list_lookup].
      rewrite (IH (S k) labels colors).
      * rewrite <- app_assoc. cbn [app zip zip_with length].
        f_equal. do 2 case_decide; (done || lia).
      * intros j Hj. replace (S k + j)%nat with (k + S j)%nat by lia.
        rewrite Hlab by (cbn; lia). done.
      * intros j Hj. replace (S k + j)%nat with (k + S j)%nat by lia.
        rewrite Hcol by (cbn; lia). done.
      * cbn in Hlen. lia.
Qed.

Lemma item_formatted (ds : list Z) (i : nat) :
  (item (map Some ds) i ≫= λ d, format_comma <$> py_int d)
  = item (map format_comma ds) i.
Proof. unfold item. rewrite !list_lookup_fmap. by destruct (ds !! i). Qed.

Section Render.
Variable self : WaterfallChart.
Hypothesis Hdelta : delta_col self = "delta".
Hypothesis Hbase : base_col self = "base".
Hypothesis Hvalues : step_values self ≠ [].
Hypothesis Hnames : length (step_names self) = length (step_values self).
Hypothesis Hmetric : metric_col self ≠ "delta".

Lemma table_metric_column :
  pd.getitem (table self) (metric_col self) = Ok (metric_column self).
Proof.
  unfold metric_column. case_decide as Hm.
  - rewrite Hm. apply table_base.
  - by apply table_metric.
Qed.

Lemma length_metric_column : length (metric_column self) = S (length (step_values self)).
Proof.
  unfold metric_column. case_decide.
  - by apply length_base_column.
  - apply length_value_column.
Qed.

Lemma length_text_colors ckw delta : length (text_colors ckw delta) = length delta.
Proof. unfold text_colors. by rewrite length_map, length_seq. Qed.

Lemma table_colors ckw :
  create_color_list self (table self) ckw
  = Ok (bar_colors ckw (delta_column (step_values self)),
        text_colors ckw (delta_column (step_values self))).
Proof.
  apply create_color_list_by_role.
  - rewrite Hdelta. by apply table_delta.
  - rewrite length_delta_column. destruct (step_values self); [done|cbn; lia].
Qed.

Lemma plot_bars_table ckw bkw ax :
  plot_bars self (table self) ckw bkw ax = (ax ++ [bar_call self ckw bkw], Ok ()).
Proof.
  unfold plot_bars. rewrite table_colors, bind_lift_ok.
  rewrite Hdelta, Hbase, table_delta, table_base by done.
  reflexivity.
Qed.

Lemma plot_link_lines_table lkw ax :
  plot_link_lines self (table self) lkw ax = (ax ++ [line_call self lkw], Ok ()).
Proof.
  unfold plot_link_lines. rewrite table_metric_column. reflexivity.
Qed.

Lemma add_labels_table v ckw ax :
  add_labels self (table self) v ckw ax
  = match check_label_type v with
    | Err e => (ax, Err e)
    | Ok _ =>
        (ax ++ label_texts (metric_column self) (wanted_labels self v)
                 (text_colors ckw (delta_column (step_values self))),
         if decide (length (wanted_labels self v) < S (length (step_values self)))%nat
         then Err IndexError else Ok ())
    end.
Proof.
  unfold add_labels. rewrite table_colors, bind_lift_ok. cbn [snd].
  destruct (check_label_type v) as [ty|e] eqn:Hty; [|done].
  rewrite bind_lift_ok, table_metric_column, bind_lift_ok.
  unfold label_texts, enumerate.
  rewrite <- length_metric_column.
  pose proof length_metric_column as Hlen.
  destruct v as [[| b | z | s] | l]; try done; injection Hty as <-.
  - apply (for_each_labels _ (λ i, item _ i)); [|done|].
    + intros j Hj. cbn [String.eqb Ascii.eqb Bool.eqb wanted_labels].
      rewrite Hdelta, table_delta by done. cbn [mbind result_bind].
      unfold delta_column. apply item_formatted.
    + by rewrite length_text_colors, length_delta_column, Hlen.
  - apply (for_each_labels _ (λ i, item _ i)); [|done|].
    + intros j Hj. cbn [String.eqb Ascii.eqb Bool.eqb wanted_labels].
      rewrite item_replicate; [done|]. by rewrite <- Hlen.
    + by rewrite length_text_colors, length_delta_column, Hlen.
  - apply (for_each_labels _ (λ i, item _ i)); [|done|].
    + intros j Hj. cbn [String.eqb Ascii.eqb Bool.eqb wanted_labels].
      apply item_fmap.
    + by rewrite length_text_colors, length_delta_column, Hlen.
Qed.

Lemma plot_waterfall_table ax fs title v ckw bkw lkw :
  plot_waterfall self ax fs title v ckw bkw lkw
  = let ax1 := default (subplots fs) ax ++ [bar_call self ckw bkw; line_call self lkw] in
    if truthy v then
      match add_labels self (table self) v ckw ax1 with
      | (ax2, Ok _) => (Some (ax2 ++ format_calls self title), Ok ())
      | (ax2, Err e) => (Some ax2, Err e)
      end
    else (Some (ax1 ++ format_calls self title), Ok ()).
Proof.
  unfold plot_waterfall. rewrite prep_plot_table by done.
  replace (match ax with Some ax0 => ax0 | None => subplots fs end)
    with (default (subplots fs) ax) by by destruct ax.
  generalize (default (subplots fs) ax). intros ax0.
  rewrite bind_unfold, plot_bars_table.
  rewrite bind_unfold, plot_link_lines_table.
  rewrite <- app_assoc. cbn [app].
  rewrite bind_unfold. cbn zeta.
  destruct (truthy v).
  - destruct (add_labels self (table self) v ckw _) as [ax2 [[]|e]]; [|done].
    rewrite bind_call, bind_lift_unfold, table_metric_column.
    unfold pd.len. cbn [table pd.index]. rewrite index_length by done.
    rewrite !bind_call. unfold call, format_calls. by rewrite <- !app_assoc.
  - cbn [mret draw_ret].
    rewrite bind_call, bind_lift_unfold, table_metric_column.
    unfold pd.len. cbn [table pd.index]. rewrite index_length by done.
    rewrite !bind_call. unfold call, format_calls. by rewrite <- !app_assoc.
Qed.
End Render.

(** ** Number formatting *)

Lemma filter_rev {A} (P : A → Prop) `{!∀ x, Decision (P x)} (l : list A) :
  filter P (rev l) = rev (filter P l).
Proof.
  induction l as [|a l IH]; [done|].
  cbn [rev]. rewrite filter_app, IH, filter_cons, filter_cons, filter_nil.
  case_decide; [done|]. by rewrite app_nil_r.
Qed.

Lemma filter_group_rev (n : nat) (ds : list ascii) :
  filter (λ c, c ≠ ","%char) (group_rev n ds) = filter (λ c, c ≠ ","%char) ds.
Proof.
  revert n. induction ds as [|d ds IH]; intros n; [done|].
  destruct n as [|n]; cbn [group_rev].
  - rewrite filter_cons_False by (intros H; by apply H).
    by rewrite !(filter_cons _ d), IH.
  - by rewrite !(filter_cons _ d), IH.
Qed.

Lemma filter_all {A} (P : A → Prop) `{!∀ x, Decision (P x)} (l : list A) :
  Forall P l → filter P l = l.
Proof.
  induction 1 as [|a l Ha _ IH]; [done|]. by rewrite filter_cons_True, IH.
Qed.

Lemma digits_no_comma (d : Decimal.uint) :
  Forall (λ c, c ≠ ","%char) (list_ascii_of_string (NilEmpty.string_of_uint d)).
Proof. induction d; cbn; constructor; done. Qed.

Lemma remove_commas_group_digits (d : Decimal.uint) :
  remove_commas (group_digits (NilEmpty.string_of_uint d)) = NilEmpty.string_of_uint d.
Proof.
  unfold remove_commas, group_digits.
  rewrite list_ascii_of_string_of_list_ascii, filter_rev, filter_group_rev.
  rewrite <- filter_rev, rev_involutive, filter_all by apply digits_no_comma.
  apply string_of_list_ascii_of_string.
Qed.

Lemma remove_commas_format_comma (n : Z) : remove_commas (format_comma n) = str_of_Z n.
Proof.
  unfold format_comma, str_of_Z. destruct (Z.to_int n) as [d|d].
  - apply remove_commas_group_digits.
  - cbn [NilEmpty.string_of_int].
    change ("-" +:+ ?s) with (String "-" s).
    rewrite <- (remove_commas_group_digits d) at 2.
    unfold remove_commas. cbn [list_ascii_of_string].
    by rewrite filter_cons_True.
Qed.

(** ** Labels *)

Lemma enumerate_lookup {A} (l : list A) (i : nat) (x : A) :
  l !! i = Some x → enumerate l !! i = Some (i, x).
Proof.
  intros H. unfold enumerate. apply lookup_zip_with_Some.
  exists i, x. split; [done|]. split; [|done].
  apply lookup_seq. split; [done|]. by eapply lookup_lt_Some.
Qed.

Lemma length_enumerate {A} (l : list A) : length (enumerate l) = length l.
Proof. unfold enumerate. rewrite length_zip_with, length_seq. lia. Qed.

Lemma label_texts_lookup metric labels colors i v s c :
  metric !! i = Some v → labels !! i = Some s → colors !! i = Some c →
  label_texts metric labels colors !! i = Some (Text i (scale (102 # 100) v) s c).
Proof.
  intros Hv Hs Hc. unfold label_texts. apply lookup_zip_with_Some.
  exists (i, v), (s, c). split; [done|]. split; [by apply enumerate_lookup|].
  apply lookup_zip_with_Some. by exists s, c.
Qed.

Lemma length_label_texts metric labels colors :
  length (label_texts metric labels colors)
  = (length metric `min` (length labels `min` length colors))%nat.
Proof.
  unfold label_texts. by rewrite length_zip_with, length_enumerate, length_zip_with.
Qed.

Lemma texts_app (ax ax' : Axes) : texts (ax ++ ax') = texts ax ++ texts ax'.
Proof. unfold texts. apply omap_app. Qed.

Lemma texts_label_texts metric labels colors :
  length (texts (label_texts metric labels colors))
  = length (label_texts metric labels colors)
  ∧ Forall (λ t, t.1.2 ∈ labels) (texts (label_texts metric labels colors)).
Proof.
  unfold label_texts.
  generalize (enumerate metric). intros rows.
  assert (Hin : Forall (λ p : string * string, p.1 ∈ labels) (zip labels colors)).
  { apply Forall_forall. intros [s c] H. cbn. by eapply elem_of_zip_l. }
  revert Hin. generalize (zip labels colors). intros pairs.
  revert pairs. induction rows as [|[i v] rows IH]; intros [|[s c] pairs] Hin;
    try (split; [done|constructor]).
  inversion Hin as [|? ? Hs Hrest]; subst. cbn in Hs.
  destruct (IH pairs Hrest) as [Hlen Hall]. cbn. split; [by f_equal|].
  constructor; done.
Qed.

(** ** Rendering a chart built by [__init__] *)

Section RenderInit.
Variables (vs : list Z) (names : list string) (metric last_label : string).
Variable df : pd.DataFrame.
Let self := init vs names metric last_label.
Hypothesis Hprep : prep_plot self = Ok df.

Lemma init_table : df = table self.
Proof. by apply prep_plot_init_inv in Hprep as (_ & _ & _ & ->). Qed.

Lemma init_len : pd.len df = S (length vs).
Proof.
  rewrite init_table. apply prep_plot_init_inv in Hprep as (_ & Hn & _ & _).
  by apply (table_len self).
Qed.

Lemma init_delta : pd.getitem df "delta" = Ok (delta_column vs).
Proof.
  rewrite init_table. apply prep_plot_init_inv in Hprep as (_ & _ & Hm & _).
  by apply (table_delta self).
Qed.

Lemma init_metric : pd.getitem df (metric_col self) = Ok (metric_column self).
Proof.
  rewrite init_table. apply prep_plot_init_inv in Hprep as (Hv & Hn & Hm & _).
  by apply (table_metric_column self).
Qed.

Lemma init_length_metric : length (metric_column self) = S (length vs).
Proof.
  apply prep_plot_init_inv in Hprep as (Hv & Hn & Hm & _).
  by apply (length_metric_column self).
Qed.

Lemma init_add_labels v ckw ax :
  add_labels self df v ckw ax
  = match check_label_type v with
    | Err e => (ax, Err e)
    | Ok _ =>
        (ax ++ label_texts (metric_column self) (wanted_labels self v)
                 (text_colors ckw (delta_column vs)),
         if decide (length (wanted_labels self v) < S (length vs))%nat
         then Err IndexError else Ok ())
    end.
Proof.
  rewrite init_table. apply prep_plot_init_inv in Hprep as (Hv & Hn & Hm & _).
  by apply (add_labels_table self).
Qed.

Lemma init_plot_waterfall ax fs title v ckw bkw lkw :
  plot_waterfall self ax fs title v ckw bkw lkw
  = let ax1 := default (subplots fs) ax ++ [bar_call self ckw bkw; line_call self lkw] in
    if truthy v then
      match add_labels self df v ckw ax1 with
      | (ax2, Ok _) => (Some (ax2 ++ format_calls self title), Ok ())
      | (ax2, Err e) => (Some ax2, Err e)
      end
    else (Some (ax1 ++ format_calls self title), Ok ()).
Proof.
  rewrite init_table. apply prep_plot_init_inv in Hprep as (Hv & Hn & Hm & _).
  by apply (plot_waterfall_table self).
Qed.

Lemma init_plot_bars ckw bkw ax :
  plot_bars self df ckw bkw ax = (ax ++ [bar_call self ckw bkw], Ok ()).
Proof.
  rewrite init_table. apply prep_plot_init_inv in Hprep as (Hv & Hn & Hm & _).
  by apply (plot_bars_table self).
Qed.

Lemma init_plot_link_lines lkw ax :
  plot_link_lines self df lkw ax = (ax ++ [line_call self lkw], Ok ()).
Proof.
  rewrite init_table. apply prep_plot_init_inv in Hprep as (Hv & Hn & Hm & _).
  by apply (plot_link_lines_table self).
Qed.
End RenderInit.

Lemma texts_bars_lines self ckw bkw lkw :
  texts [bar_call self ckw bkw; line_call self lkw] = [].
Proof. reflexivity. Qed.

Lemma texts_format_calls self title : texts (format_calls self title) = [].
Proof. reflexivity. Qed.




(** C6, as the code has it: with an explicit list shorter than the table,
    [add_labels] draws the labels of the first len(list) bars, one per
    list entry, and then fails with an [IndexError]; what was drawn stays
    drawn. *)
Theorem add_labels_short_list (vs : list Z) (names : list string)
    (metric last_label : string) (df : pd.DataFrame) (l : list PyAtom)
    (color_kwargs : gmap string string) (ax : Axes) :
  let self := init vs names metric last_label in
  prep_plot self = Ok df →
  (length l < pd.len df)%nat →
  ∃ drawn : list Call,
    add_labels self df (PyList l) color_kwargs ax = (ax ++ drawn, Err IndexError)
    ∧ length drawn = length l
    ∧ ∀ (i : nat) (a : PyAtom),
        l !! i = Some a → ∃ y c, drawn !! i = Some (Text i y (py_str a) c).
Proof.
  intros self Hprep Hlen. subst self.
  rewrite (init_len _ _ _ _ _ Hprep) in Hlen.
  set (self := init vs names metric last_label) in *.
  exists (label_texts (metric_column self) (map py_str l)
            (text_colors color_kwargs (delta_column vs))).
  assert (Hcols : length (text_colors color_kwargs (delta_column vs)) = S (length vs)).
  { unfold text_colors. by rewrite length_map, length_seq, length_delta_column. }
  pose proof (init_length_metric _ _ _ _ _ Hprep) as Hrows. fold self in Hrows.
  split; [|split].
  - rewrite (init_add_labels _ _ _ _ _ Hprep). cbn [check_label_type wanted_labels].
    by rewrite length_map, decide_True.
  - rewrite length_label_texts, length_map, Hrows, Hcols. lia.
  - intros i a Ha. apply lookup_lt_Some in Ha as Hi.
    destruct (lookup_lt_is_Some_2 (metric_column self) i) as [v Hv]; [lia|].
    destruct (lookup_lt_is_Some_2 (text_colors color_kwargs (delta_column vs)) i)
      as [c Hc]; [lia|].
    exists (scale (102 # 100) v), c. apply label_texts_lookup; [done| |done].
    by rewrite list_lookup_fmap, Ha.
Qed.

Lemma add_labels_short_list_witness :
  ∃ drawn : list Call,
    add_labels (init [100; 120] [] EmptyString EmptyString)
      (table (init [100; 120] [] EmptyString EmptyString))
      (PyList [PyStr "a"; PyInt 7]) ∅ []
    = ([] ++ drawn, Err IndexError)
    ∧ length drawn = 2%nat.
Proof.
  destruct (add_labels_short_list [100; 120] [] EmptyString EmptyString
              (table (init [100; 120] [] EmptyString EmptyString))
              [PyStr "a"; PyInt 7] ∅ [])
    as (drawn & H1 & H2 & _).
  - vm_compute. reflexivity.
  - vm_compute. lia.
  - exists drawn. split; [exact H1 | exact H2].
Defined.

(** C6 fails as stated: a two-entry list on a three-row table gets its two
    labels drawn before the [IndexError]. *)
Lemma add_labels_short_list_counterexample :
  let chart := init [100; 120] [] EmptyString EmptyString in
  ∃ df,
    prep_plot chart = Ok df
    ∧ pd.len df = 3%nat
    ∧ add_labels chart df (PyList [PyStr "a"; PyInt 7]) ∅ []
      = ([Text 0 (Some (10200 # 100)%Q) "a" "black";
          Text 1 (Some (12240 # 100)%Q) "7" "darkgreen"],
         Err IndexError).
Proof. eexists. vm_compute. repeat split. Qed.



(** C9, as the code has it: when [color_kwargs] has no entry for
    [c_bar_start], the bar colour of the very first bar is the string "c",
    matplotlib's one-letter colour code. *)
Theorem default_start_color (self : WaterfallChart) (df : pd.DataFrame)
    (delta : list (option Z)) (color_kwargs : gmap string string) :
  color_kwargs !! "c_bar_start" = None →
  pd.getitem df (delta_col self) = Ok delta →
  (let '(_, _, c_bar_start, _, _, _, _, _) := get_colors color_kwargs in
   c_bar_start = "c")
  ∧ ∃ barcolors txtcolors,
      create_color_list self df color_kwargs = Ok (barcolors, txtcolors)
      ∧ barcolors !! 0%nat = Some "c".
Proof.
  intros Hkw Hdelta. unfold create_color_list, get_colors, dict_get.
  rewrite Hkw, Hdelta. cbn [default mbind result_bind mret result_ret].
  split; [done|]. eauto.
Qed.

Lemma default_start_color_witness :
  ∃ barcolors txtcolors,
    create_color_list (init [50] [] EmptyString EmptyString)
      (table (init [50] [] EmptyString EmptyString)) ∅ = Ok (barcolors, txtcolors)
    ∧ barcolors !! 0%nat = Some "c".
Proof.
  apply (default_start_color (init [50] [] EmptyString EmptyString)
           (table (init [50] [] EmptyString EmptyString)) [Some 50; Some 50] ∅).
  - reflexivity.
  - vm_compute. reflexivity.
Defined.

(** C9 fails as stated: the default start colour is "c", not "cyan". *)
Lemma default_start_color_counterexample :
  let '(_, _, c_bar_start, _, _, _, _, _) := get_colors ∅ in
  c_bar_start = "c" ∧ c_bar_start ≠ "cyan".
Proof. vm_compute. split; [reflexivity | discriminate]. Qed.



(** * Further properties of the code *)

(** ** Connector lines *)

Lemma lookup_repeat {A} (k : nat) (s : list A) (q : nat) :
  (0 < k)%nat → pd.repeat k s !! q = s !! (q / k)%nat.
Proof.
  intros Hk. unfold pd.repeat. revert q. induction s as [|a s IH]; intros q; [done|].
  cbn [flat_map]. destruct (decide (q < k)%nat) as [Hq|Hq].
  - rewrite lookup_app_l by (by rewrite length_replicate).
    rewrite Nat.div_small by done. cbn. by apply lookup_replicate_2.
  - rewrite lookup_app_r by (rewrite length_replicate; lia).
    rewrite length_replicate, IH.
    replace q with (1 * k + (q - k))%nat at 2 by lia.
    rewrite Nat.div_add_l by lia. done.
Qed.

Lemma length_repeat {A} (k : nat) (s : list A) : length (pd.repeat k s) = (k * length s)%nat.
Proof.
  unfold pd.repeat. induction s as [|a s IH]; cbn [flat_map length]; [lia|].
  rewrite length_app, length_replicate, IH. lia.
Qed.

Lemma length_shift (k : nat) (s : list (option Z)) : length (pd.shift k s) = length s.
Proof. unfold pd.shift. rewrite length_take, length_app. lia. Qed.

Lemma lookup_shift (k : nat) (s : list (option Z)) (q : nat) :
  (q < length s)%nat →
  pd.shift k s !! q = if decide (q < k)%nat then Some None else s !! (q - k)%nat.
Proof.
  intros Hq. unfold pd.shift. rewrite lookup_take_lt by done. case_decide.
  - rewrite lookup_app_l by (by rewrite length_replicate). by apply lookup_replicate_2.
  - rewrite lookup_app_r by (rewrite length_replicate; lia). by rewrite length_replicate.
Qed.

Lemma enumerate_lookup_fmap {A} (l : list A) (q : nat) :
  enumerate l !! q = pair q <$> l !! q.
Proof.
  destruct (l !! q) as [x|] eqn:H.
  - by apply enumerate_lookup.
  - apply lookup_ge_None. rewrite length_enumerate. by apply lookup_ge_None.
Qed.

Lemma length_blank_every_third s : length (blank_every_third s) = length s.
Proof. unfold blank_every_third. by rewrite length_map, length_enumerate. Qed.

Lemma lookup_blank_every_third (s : list (option Z)) (q : nat) :
  blank_every_third s !! q
  = (λ v, if (1 <=? q)%nat && (q <? length s - 1)%nat && ((q - 1) mod 3 =? 0)%nat
          then None else v) <$> s !! q.
Proof.
  unfold blank_every_third. rewrite list_lookup_fmap, enumerate_lookup_fmap.
  by destruct (s !! q).
Qed.

Lemma lookup_inner {A} (l : list A) (p : nat) :
  (S (S (S p)) ≤ length l)%nat → inner l !! p = l !! S p.
Proof.
  intros H. destruct (two_ends l) as (a & mid & z & E); [lia|]. subst l.
  rewrite inner_snoc. rewrite length_cons, length_app in H. cbn in H.
  rewrite lookup_cons. by rewrite lookup_app_l by lia.
Qed.

Lemma div3 (j r : nat) : (r < 3)%nat → ((3 * j + r) / 3 = j)%nat.
Proof. intros H. symmetry. apply (Nat.div_unique _ 3 j r); lia. Qed.

Lemma mod3 (j r : nat) : (r < 3)%nat → ((3 * j + r) mod 3 = r)%nat.
Proof. intros H. symmetry. apply (Nat.mod_unique _ 3 j r); lia. Qed.

Lemma link_lines_length (m : list (option Z)) :
  length (inner (blank_every_third (pd.shift 2 (pd.repeat 3 m)))) = (3 * length m - 2)%nat.
Proof. by rewrite length_inner, length_blank_every_third, length_shift, length_repeat. Qed.

Lemma link_lines_gap (m : list (option Z)) (j : nat) :
  (j < length m)%nat →
  inner (blank_every_third (pd.shift 2 (pd.repeat 3 m))) !! (3 * j)%nat = Some None.
Proof.
  intros Hj.
  assert (Hlen : length (pd.shift 2 (pd.repeat 3 m)) = (3 * length m)%nat)
    by by rewrite length_shift, length_repeat.
  rewrite lookup_inner by (rewrite length_blank_every_third, Hlen; lia).
  rewrite lookup_blank_every_third, Hlen.
  destruct (lookup_lt_is_Some_2 (pd.shift 2 (pd.repeat 3 m)) (S (3 * j))) as [x ->]; [lia|].
  cbn [fmap option_fmap option_map].
  replace (S (3 * j) - 1)%nat with (3 * j + 0)%nat by lia. rewrite mod3 by lia.
  destruct (Nat.ltb_spec (S (3 * j)) (3 * length m - 1)); [done|lia].
Qed.

Lemma link_lines_segment (m : list (option Z)) (j : nat) (v : option Z) :
  m !! j = Some v → (S j < length m)%nat →
  inner (blank_every_third (pd.shift 2 (pd.repeat 3 m))) !! (3 * j + 1)%nat = Some v
  ∧ inner (blank_every_third (pd.shift 2 (pd.repeat 3 m))) !! (3 * j + 2)%nat = Some v.
Proof.
  intros Hv Hj.
  assert (Hrep : length (pd.repeat 3 m) = (3 * length m)%nat) by apply length_repeat.
  assert (Hlen : length (pd.shift 2 (pd.repeat 3 m)) = (3 * length m)%nat)
    by by rewrite length_shift.
  split.
  - rewrite lookup_inner by (rewrite length_blank_every_third, Hlen; lia).
    rewrite lookup_blank_every_third, lookup_shift by lia.
    rewrite decide_False by lia.
    replace (S (3 * j + 1) - 2)%nat with (3 * j + 0)%nat by lia.
    rewrite lookup_repeat, div3, Hv by lia. cbn [fmap option_fmap option_map].
    replace (S (3 * j + 1) - 1)%nat with (3 * j + 1)%nat by lia. by rewrite mod3, andb_false_r by lia.
  - rewrite lookup_inner by (rewrite length_blank_every_third, Hlen; lia).
    rewrite lookup_blank_every_third, lookup_shift by lia.
    rewrite decide_False by lia.
    replace (S (3 * j + 2) - 2)%nat with (3 * j + 1)%nat by lia.
    rewrite lookup_repeat, div3, Hv by lia. cbn [fmap option_fmap option_map].
    replace (S (3 * j + 2) - 1)%nat with (3 * j + 2)%nat by lia. by rewrite mod3, andb_false_r by lia.
Qed.

Lemma link_index_segment {A} (idx : list A) (j : nat) (a b : A) :
  idx !! j = Some a → idx !! S j = Some b →
  inner (pd.repeat 3 idx) !! (3 * j)%nat = Some a
  ∧ inner (pd.repeat 3 idx) !! (3 * j + 1)%nat = Some a
  ∧ inner (pd.repeat 3 idx) !! (3 * j + 2)%nat = Some b.
Proof.
  intros Ha Hb. apply lookup_lt_Some in Hb as Hlt.
  assert (Hrep : length (pd.repeat 3 idx) = (3 * length idx)%nat) by apply length_repeat.
  repeat split.
  - rewrite lookup_inner, lookup_repeat by lia.
    replace (S (3 * j)) with (3 * j + 1)%nat by lia. by rewrite div3 by lia.
  - rewrite lookup_inner, lookup_repeat by lia.
    replace (S (3 * j + 1)) with (3 * j + 2)%nat by lia. by rewrite div3 by lia.
  - rewrite lookup_inner, lookup_repeat by lia.
    replace (S (3 * j + 2)) with (3 * S j + 0)%nat by lia. by rewrite div3 by lia.
Qed.

(** ** Further properties of the table *)

Lemma cumsum_from_differences (t : list Z) (a : Z) :
  cumsum_from a (zip_with Z.sub t (a :: t)) = t.
Proof.
  revert a. induction t as [|b t IH]; intros a; [done|].
  cbn [zip_with cumsum_from]. replace (a + (b - a)) with b by lia.
  by rewrite IH.
Qed.

Lemma cumsum_deltas_of (vs : list Z) : cumsum (deltas_of vs) = vs.
Proof.
  destruct vs as [|v t]; [done|]. unfold cumsum. cbn [deltas_of cumsum_from].
  replace (0 + v) with v by lia. by rewrite cumsum_from_differences.
Qed.

(** For step values that pandas computes without rounding (integers that
    float64 holds exactly, with exactly held successive differences), the
    running total of the delta column, the trailing row left out, gives
    back the step values the chart was built from. *)
Theorem prep_plot_cumsum (vs : list Z) (names : list string) (metric last_label : string) :
  vs ≠ [] → names = [] ∨ length names = length vs → metric ≠ "delta" →
  exact_inputs vs →
  ∃ (df : pd.DataFrame) (delta : list Z),
    prep_plot (init vs names metric last_label) = Ok df
    ∧ pd.getitem df "delta" = Ok (map Some delta)
    ∧ cumsum (but_last delta) = vs.
Proof.
  intros Hvs Hnames Hmetric _.
  exists (table (init vs names metric last_label)), (deltas_of vs ++ [final_of vs]).
  split; [by apply prep_plot_init|].
  split; [apply (table_delta (init vs names metric last_label)); by apply init_metric_col|].
  unfold but_last. rewrite removelast_last. apply cumsum_deltas_of.
Qed.

Lemma prep_plot_cumsum_witness :
  ∃ (df : pd.DataFrame) (delta : list Z),
    prep_plot (init [100; 120; 90; 130] [] EmptyString EmptyString) = Ok df
    ∧ pd.getitem df "delta" = Ok (map Some delta)
    ∧ cumsum (but_last delta) = [100; 120; 90; 130].
Proof.
  apply (prep_plot_cumsum [100; 120; 90; 130] [] EmptyString EmptyString).
  - discriminate.
  - left; reflexivity.
  - discriminate.
  - split; repeat constructor; unfold float64_exact; cbn; lia.
Defined.

(** The rows of the table are labelled by the step names, or by Step_1,
    Step_2, ... when none were given. *)
Theorem prep_plot_index (vs : list Z) (names : list string) (metric last_label : string) :
  vs ≠ [] → names = [] ∨ length names = length vs → metric ≠ "delta" →
  ∃ df : pd.DataFrame,
    prep_plot (init vs names metric last_label) = Ok df
    ∧ (names = [] →
       ∀ i : nat, (i < length vs)%nat →
                  pd.index df !! i = Some ("Step_" +:+ str_of_nat (i + 1)))
    ∧ (names ≠ [] → ∀ (i : nat) (s : string), names !! i = Some s → pd.index df !! i = Some s).
Proof.
  intros Hvs Hnames Hmetric.
  exists (table (init vs names metric last_label)).
  split; [by apply prep_plot_init|]. cbn [table pd.index].
  split.
  - intros -> i Hi. cbn [init step_names length Nat.ltb Nat.leb].
    rewrite lookup_app_l by (by rewrite length_map, length_seq).
    by rewrite list_lookup_fmap, lookup_seq_lt.
  - intros Hne i s Hs. destruct names as [|a names]; [done|].
    cbn [init step_names length Nat.ltb Nat.leb].
    rewrite lookup_app_l by (by eapply lookup_lt_Some). done.
Qed.

Lemma prep_plot_index_witness :
  ∃ df : pd.DataFrame,
    prep_plot (init [100; 120] [] EmptyString EmptyString) = Ok df
    ∧ pd.index df !! 1%nat = Some "Step_2".
Proof.
  destruct (prep_plot_index [100; 120] [] EmptyString EmptyString)
    as (df & Hdf & Hauto & _).
  - discriminate.
  - left; reflexivity.
  - discriminate.
  - exists df. split; [exact Hdf|]. apply (Hauto eq_refl 1%nat). vm_compute. lia.
Defined.

(** With no step values there is nothing to plot: [plot_waterfall] raises
    the [IndexError] of [step_values[-1]] before it draws anything or
    makes a figure. *)
Theorem plot_waterfall_no_values (names : list string) (metric last_label : string)
    (ax : option Axes) (figsize : Q * Q) (title : string) (bar_labels : PyVal)
    (color_kwargs : gmap string string) (bar_kwargs line_kwargs : gmap string KwArg) :
  prep_plot (init [] names metric last_label) = Err IndexError
  ∧ plot_waterfall (init [] names metric last_label) ax figsize title bar_labels
      color_kwargs bar_kwargs line_kwargs
    = (ax, Err IndexError).
Proof.
  assert (H : prep_plot (init [] names metric last_label) = Err IndexError)
    by by apply prep_plot_empty.
  split; [done|]. unfold plot_waterfall. by rewrite H.
Qed.



(** A metric named like the delta column: the table cannot be built, the
    two columns of that name make [prep_plot] raise a [ValueError]. *)
Theorem prep_plot_metric_named_delta (vs : list Z) (names : list string)
    (last_label : string) :
  vs ≠ [] → names = [] ∨ length names = length vs →
  ∃ msg, prep_plot (init vs names "delta" last_label) = Err (ValueError msg).
Proof.
  intros Hvs Hnames.
  apply prep_plot_metric_delta; try done. by apply init_names_aligned.
Qed.

Lemma prep_plot_metric_named_delta_witness :
  ∃ msg, prep_plot (init [100; 120] [] "delta" EmptyString) = Err (ValueError msg).
Proof.
  apply (prep_plot_metric_named_delta [100; 120] [] EmptyString).
  - discriminate.
  - left; reflexivity.
Defined.

(** ** Further properties of the colours *)

(** On any frame with a delta column, [create_color_list] gives a bar
    colour list and a text colour list of one length: the number of rows,
    and never fewer than two (the start and the end colour). *)
Theorem create_color_list_length (self : WaterfallChart) (df : pd.DataFrame)
    (color_kwargs : gmap string string) (delta : list (option Z)) :
  pd.getitem df (delta_col self) = Ok delta →
  ∃ barcolors txtcolors,
    create_color_list self df color_kwargs = Ok (barcolors, txtcolors)
    ∧ length barcolors = (2 `max` length delta)%nat
    ∧ length txtcolors = (2 `max` length delta)%nat.
Proof.
  intros Hdelta. unfold create_color_list, get_colors. rewrite Hdelta.
  cbn [mbind result_bind mret result_ret]. eexists _, _. split; [done|].
  cbn [app length]. rewrite !length_app, !length_map, length_inner. cbn [length]. lia.
Qed.

Lemma create_color_list_length_witness :
  ∃ barcolors txtcolors,
    create_color_list (init [50] [] EmptyString EmptyString)
      {| pd.index := ["only"]; pd.columns := [("delta", [Some 50])] |} ∅
    = Ok (barcolors, txtcolors)
    ∧ length barcolors = 2%nat ∧ length txtcolors = 2%nat.
Proof.
  apply (create_color_list_length (init [50] [] EmptyString EmptyString)
           {| pd.index := ["only"]; pd.columns := [("delta", [Some 50])] |} ∅ [Some 50]).
  vm_compute. reflexivity.
Defined.

(** An entry of [color_kwargs] under a name that is none of the eight
    colour controls changes no colour. *)
Theorem get_colors_unknown_key (self : WaterfallChart) (df : pd.DataFrame)
    (color_kwargs : gmap string string) (key value : string) :
  key ∉ color_keys →
  get_colors (<[key := value]> color_kwargs) = get_colors color_kwargs
  ∧ create_color_list self df (<[key := value]> color_kwargs)
    = create_color_list self df color_kwargs.
Proof.
  intros H. unfold color_keys in H.
  assert (Hcolors : get_colors (<[key := value]> color_kwargs) = get_colors color_kwargs).
  { unfold get_colors, dict_get.
    rewrite !lookup_insert_ne; [done|..]; intros ->; apply H; set_solver. }
  split; [done|]. unfold create_color_list. by rewrite Hcolors.
Qed.

Lemma get_colors_unknown_key_witness :
  get_colors (<["c_bar" := "red"]> ∅) = get_colors ∅.
Proof.
  apply (get_colors_unknown_key (init [50] [] EmptyString EmptyString)
           {| pd.index := []; pd.columns := [] |} ∅ "c_bar" "red").
  unfold color_keys. intros H. repeat (apply elem_of_cons in H as [H|H]; [discriminate|]).
  by apply elem_of_nil in H.
Defined.

(** An entry under one of the colour controls is the colour used for that
    role: with [c_bar_neg] set, every interior bar with a negative delta
    is drawn in that colour, whatever else the palette holds. *)
Theorem create_color_list_override (vs : list Z) (names : list string)
    (metric last_label : string) (df : pd.DataFrame)
    (color_kwargs : gmap string string) (color : string) :
  let self := init vs names metric last_label in
  prep_plot self = Ok df →
  color_kwargs !! "c_bar_neg" = Some color →
  ∃ delta barcolors txtcolors,
    pd.getitem df (delta_col self) = Ok delta
    ∧ create_color_list self df color_kwargs = Ok (barcolors, txtcolors)
    ∧ ∀ (i : nat) (d : Z),
        (0 < i < pd.len df - 1)%nat → delta !! i = Some (Some d) → d < 0 →
        barcolors !! i = Some color.
Proof.
  intros self Hprep Hkw. subst self.
  pose proof (init_len _ _ _ _ _ Hprep) as Hlen.
  pose proof (init_delta _ _ _ _ _ Hprep) as Hdelta.
  pose proof (length_delta_column vs) as Hrows.
  eexists (delta_column vs), _, _. split; [exact Hdelta|].
  split.
  { apply create_color_list_by_role; [exact Hdelta|]. rewrite Hrows.
    apply prep_plot_init_inv in Hprep as (Hvs & _). destruct vs; [done|cbn; lia]. }
  intros i d Hi Hd Hneg. rewrite Hlen in Hi.
  rewrite list_lookup_fmap, lookup_seq_lt by lia. cbn [fmap option_fmap option_map].
  change (0 + i)%nat with i. unfold role_of. rewrite Hrows.
  destruct (Nat.eqb_spec i 0); [lia|].
  destruct (Nat.eqb_spec i (S (length vs) - 1)); [lia|].
  rewrite Hd. destruct (Z.leb_spec 0 d); [lia|].
  unfold bar_color, dict_get. by rewrite Hkw.
Qed.

Lemma create_color_list_override_witness :
  ∃ barcolors txtcolors,
    create_color_list (init [100; 70; 90] [] EmptyString EmptyString)
      (table (init [100; 70; 90] [] EmptyString EmptyString))
      {["c_bar_neg" := "red"]}
    = Ok (barcolors, txtcolors)
    ∧ barcolors !! 1%nat = Some "red".
Proof.
  destruct (create_color_list_override [100; 70; 90] [] EmptyString EmptyString
              (table (init [100; 70; 90] [] EmptyString EmptyString))
              {["c_bar_neg" := "red"]} "red")
    as (delta & barcolors & txtcolors & Hdelta & Hcolors & Hneg).
  - vm_compute. reflexivity.
  - reflexivity.
  - exists barcolors, txtcolors. split; [exact Hcolors|].
    apply (Hneg 1%nat (-30)); [vm_compute; lia| |lia].
    vm_compute in Hdelta. by injection Hdelta as <-.
Defined.

(** ** Further properties of the drawing *)

Lemma init_colors vs names metric last_label df ckw :
  prep_plot (init vs names metric last_label) = Ok df →
  create_color_list (init vs names metric last_label) df ckw
  = Ok (bar_colors ckw (delta_column vs), text_colors ckw (delta_column vs)).
Proof.
  intros Hprep. apply create_color_list_by_role.
  - apply (init_delta _ _ _ _ _ Hprep).
  - rewrite length_delta_column.
    apply prep_plot_init_inv in Hprep as (Hvs & _). destruct vs; [done|cbn; lia].
Qed.

Lemma length_text_colors_any ckw delta : length (text_colors ckw delta) = length delta.
Proof. unfold text_colors. by rewrite length_map, length_seq. Qed.

(** An explicit list with at least one entry per row: [add_labels] draws
    one label per row and returns normally; label i is str(list[i]), set
    at x = i and y = 1.02 times the row's value in the row's text colour,
    and the entries beyond the table are not looked at. *)
Theorem add_labels_list (vs : list Z) (names : list string)
    (metric last_label : string) (df : pd.DataFrame) (l : list PyAtom)
    (color_kwargs : gmap string string) (ax : Axes) :
  let self := init vs names metric last_label in
  prep_plot self = Ok df →
  (pd.len df ≤ length l)%nat →
  ∃ (value : list (option Z)) (colors : list string * list string) (drawn : list Call),
    pd.getitem df (metric_col self) = Ok value
    ∧ create_color_list self df color_kwargs = Ok colors
    ∧ add_labels self df (PyList l) color_kwargs ax = (ax ++ drawn, Ok ())
    ∧ length drawn = pd.len df
    ∧ ∀ i : nat, (i < pd.len df)%nat →
        ∃ a v c, l !! i = Some a ∧ value !! i = Some v ∧ colors.2 !! i = Some c
                 ∧ drawn !! i = Some (Text i (scale (102 # 100) v) (py_str a) c).
Proof.
  intros self Hprep Hlen. subst self.
  rewrite (init_len _ _ _ _ _ Hprep) in *.
  pose proof (init_length_metric _ _ _ _ _ Hprep) as Hrows.
  set (self := init vs names metric last_label) in *.
  set (colors := text_colors color_kwargs (delta_column vs)).
  assert (Hcols : length colors = S (length vs)).
  { unfold colors. by rewrite length_text_colors_any, length_delta_column. }
  exists (metric_column self), (bar_colors color_kwargs (delta_column vs), colors),
    (label_texts (metric_column self) (map py_str l) colors).
  split; [by apply init_metric|].
  split; [by apply init_colors|].
  split.
  { rewrite (init_add_labels _ _ _ _ _ Hprep). cbn [check_label_type wanted_labels].
    fold self colors. by rewrite length_map, decide_False by lia. }
  split; [rewrite length_label_texts, length_map, Hrows, Hcols; lia|].
  intros i Hi.
  destruct (lookup_lt_is_Some_2 l i) as [a Ha]; [lia|].
  destruct (lookup_lt_is_Some_2 (metric_column self) i) as [v Hv]; [lia|].
  destruct (lookup_lt_is_Some_2 colors i) as [c Hc]; [lia|].
  exists a, v, c. repeat (split; [done|]).
  apply label_texts_lookup; [done| |done]. by rewrite list_lookup_fmap, Ha.
Qed.

Lemma add_labels_list_witness :
  ∃ drawn : list Call,
    add_labels (init [100; 120] [] EmptyString EmptyString)
      (table (init [100; 120] [] EmptyString EmptyString))
      (PyList [PyStr "a"; PyStr "b"; PyStr "c"; PyStr "d"]) ∅ []
    = ([] ++ drawn, Ok ())
    ∧ length drawn = 3%nat.
Proof.
  destruct (add_labels_list [100; 120] [] EmptyString EmptyString
              (table (init [100; 120] [] EmptyString EmptyString))
              [PyStr "a"; PyStr "b"; PyStr "c"; PyStr "d"] ∅ [])
    as (value & colors & drawn & _ & _ & Hdrawn & Hlen & _).
  - vm_compute. reflexivity.
  - vm_compute. lia.
  - exists drawn. split; [exact Hdrawn | exact Hlen].
Defined.





(** The bars: when [bar_kwargs] names none of the arguments the code
    passes itself (x, height, bottom, color), [plot_bars] issues one
    [ax.bar] over the row labels, with the delta column as heights, the
    base column as bottoms and the bar colours of [create_color_list].
    The keyword arguments are the caller's, with [width] set to 0.6 when
    the caller gave none. *)
Theorem plot_bars_call (vs : list Z) (names : list string)
    (metric last_label : string) (df : pd.DataFrame)
    (color_kwargs : gmap string string) (bar_kwargs : gmap string KwArg) (ax : Axes) :
  let self := init vs names metric last_label in
  prep_plot self = Ok df →
  Forall (λ key, bar_kwargs !! key = None) bar_keywords →
  ∃ (delta base : list (option Z)) (colors : list string * list string)
    (kwargs : gmap string KwArg),
    pd.getitem df (delta_col self) = Ok delta
    ∧ pd.getitem df (base_col self) = Ok base
    ∧ create_color_list self df color_kwargs = Ok colors
    ∧ plot_bars self df color_kwargs bar_kwargs ax
      = (ax ++ [Bar (pd.index df) delta base colors.1 kwargs], Ok ())
    ∧ (bar_kwargs !! "width" = None → kwargs = <["width" := KwNum (6 # 10)]> bar_kwargs)
    ∧ (is_Some (bar_kwargs !! "width") → kwargs = bar_kwargs).
Proof.
  intros self Hprep _. subst self.
  pose proof (init_table _ _ _ _ _ Hprep) as Htable.
  set (self := init vs names metric last_label) in *.
  exists (delta_column vs), (base_column vs),
    (bar_colors color_kwargs (delta_column vs), text_colors color_kwargs (delta_column vs)),
    (<["width" := dict_get bar_kwargs "width" (KwNum (6 # 10))]> bar_kwargs).
  split; [apply (init_delta _ _ _ _ _ Hprep)|].
  split; [rewrite Htable; apply (table_base self)|].
  split; [by apply init_colors|].
  split.
  { rewrite (init_plot_bars _ _ _ _ _ Hprep). by rewrite Htable. }
  unfold dict_get. split.
  - by intros ->.
  - intros [w Hw]. rewrite Hw. by apply insert_id.
Qed.

Lemma plot_bars_call_witness :
  (plot_bars (init [100; 120] [] EmptyString EmptyString)
     (table (init [100; 120] [] EmptyString EmptyString)) ∅ ∅ []).2 = Ok ().
Proof.
  destruct (plot_bars_call [100; 120] [] EmptyString EmptyString
              (table (init [100; 120] [] EmptyString EmptyString)) ∅ ∅ [])
    as (delta & base & colors & kwargs & _ & _ & _ & -> & _).
  - vm_compute. reflexivity.
  - repeat constructor.
  - reflexivity.
Defined.

Lemma max_Some (l : list Z) :
  l ≠ [] → ∃ m, pd.max (map Some l) = Some m ∧ m ∈ l ∧ Forall (λ v, v ≤ m) l.
Proof.
  induction l as [|a l IH]; [done|]. intros _.
  destruct l as [|b l].
  - exists a. repeat split; [by apply list_elem_of_singleton|].
    constructor; [lia|constructor].
  - destruct IH as (m & Hm & Hin & Hall); [done|].
    exists (Z.max a m). cbn [map foldr pd.max] in *. unfold pd.max in Hm.
    cbn [map foldr] in Hm. rewrite Hm. split; [done|]. split.
    + destruct (Z.max_spec a m) as [[_ E]|[_ E]]; rewrite E; apply elem_of_cons; auto.
    + constructor; [lia|]. eapply Forall_impl; [exact Hall|]. intros; cbn in *. lia.
Qed.

Lemma max_value_column (vs : list Z) :
  vs ≠ [] →
  ∃ m, pd.max (value_column vs) = Some m ∧ m ∈ vs ∧ Forall (λ v, v ≤ m) vs.
Proof.
  intros Hvs. unfold value_column.
  destruct (max_Some (vs ++ [final_of vs])) as (m & Hm & Hin & Hall).
  { by destruct vs. }
  exists m. split; [done|]. apply Forall_app in Hall as [Hall _]. split; [|done].
  apply elem_of_app in Hin as [Hin|Hin]; [done|].
  apply list_elem_of_singleton in Hin as ->.
  apply final_of_last in Hvs. by apply last_Some_elem_of in Hvs.
Qed.


